(** * we0-index: lifecycle, validation and health aggregation

    A shallow embedding of
      - utils/health_check.py   (the two probes and the aggregator),
      - config/validation.py    (validate_environment),
      - launch/launch.py        (lifespan, GET /health),
      - scripts/validate_project.py (main),
      - constants/constants.py  (path constants, get_yaml_file_path).

    Python coroutines are embedded in a small monad that records, in
    program order, every call made to a collaborator that lives outside
    these files (settings loader, ExtManager.vector, the embedding model,
    the logger) and ends in one of three ways: a value is returned, an
    [Exception] is raised, or an awaited call never resolves. *)

From Stdlib Require Import Ascii String ZArith QArith List Bool Lia.
From stdpp Require Import base strings gmap.
Import ListNotations.
Local Open Scope string_scope.
Local Open Scope Z_scope.

(** ** Python values *)

(** The part of Python's value universe the three files build or inspect. *)
#[warnings="-register-all"]
Inductive value : Type :=
| VNone
| VStr (s : string)
| VInt (z : Z)
| VFloat (q : Q)
| VList (l : list value)
| VDict (d : list (string * value)).

(** A [dict] keeps insertion order, as in Python 3.7+. *)
Abbreviation dict := (list (string * value)).

(** [d.get(k)] *)
Fixpoint dict_get (d : dict) (k : string) : option value :=
  match d with
  | [] => None
  | (k', v) :: d' => if String.eqb k' k then Some v else dict_get d' k
  end.

(** [d[k] = v]: an existing key keeps its position, a new key goes last. *)
Fixpoint dict_set (d : dict) (k : string) (v : value) : dict :=
  match d with
  | [] => [(k, v)]
  | (k', v') :: d' =>
      if String.eqb k' k then (k', v) :: d' else (k', v') :: dict_set d' k v
  end.

(** Truth value of a Python object, as tested by [if x] / [not x]. *)
Definition truthy (v : value) : bool :=
  match v with
  | VNone => false
  | VStr s => negb (String.eqb s "")
  | VInt z => negb (Z.eqb z 0)
  | VFloat q => negb (Qeq_bool q 0)
  | VList l => match l with [] => false | _ => true end
  | VDict d => match d with [] => false | _ => true end
  end.

(** [v == s] for a string literal [s]. *)
Definition py_eq_str (v : value) (s : string) : bool :=
  match v with
  | VStr s' => String.eqb s' s
  | _ => false
  end.

(** [o != s] where [o] is the result of [dict.get] ([None] when missing). *)
Definition py_ne_str (o : option value) (s : string) : bool :=
  match o with
  | Some v => negb (py_eq_str v s)
  | None => true
  end.

(** ** Exceptions, effects, outcomes *)

(** An instance of [Exception]; [str e] is its message. *)
Inductive exn : Type := Exception (msg : string).

Definition str (e : exn) : string := let 'Exception m := e in m.

Inductive level : Type := INFO | WARNING | ERROR.

(** Calls that leave the three files. [VectorClose] is the backend's
    [close()] of the extension manager. *)
Inductive call : Type :=
| GetSettings
| InitApp
| GetDimension
| GetEmbeddingModel
| CreateEmbedding (texts : list string)
| LoopTime
| LogStart
| LogClose
| InitVector
| VectorClose.

Inductive event : Type :=
| EvCall (c : call)
| EvEnter (f : string)
| EvLog (lvl : level) (msg : string).

Inductive outcome (A : Type) : Type :=
| Return (a : A)
| Raise (e : exn)
| Pending.
Arguments Return {A} a.
Arguments Raise {A} e.
Arguments Pending {A}.

Definition is_pending {A} (o : outcome A) : bool :=
  match o with Pending => true | _ => false end.

Definition is_return {A} (o : outcome A) : bool :=
  match o with Return _ => true | _ => false end.

(** A computation: the events it performed, and how it ended. *)
Definition M (A : Type) : Type := (list event * outcome A)%type.

Definition trace {A} (m : M A) : list event := fst m.
Definition result {A} (m : M A) : outcome A := snd m.

Definition ret {A} (a : A) : M A := ([], Return a).
Definition raise {A} (e : exn) : M A := ([], Raise e).
Definition tell (ev : event) : M unit := ([ev], Return tt).

Definition bind {A B} (m : M A) (f : A -> M B) : M B :=
  match m with
  | (t, Return a) => let '(t', o) := f a in ((t ++ t')%list, o)
  | (t, Raise e) => (t, Raise e)
  | (t, Pending) => (t, Pending)
  end.

Notation "x <- m ;; k" := (bind m (fun x => k))
  (at level 100, m at next level, right associativity).
Notation "m ;;; k" := (bind m (fun _ => k))
  (at level 100, right associativity).

(** [try: m  except Exception as e: h e] *)
Definition try_except {A} (m : M A) (h : exn -> M A) : M A :=
  match m with
  | (t, Raise e) => let '(t', o) := h e in ((t ++ t')%list, o)
  | _ => m
  end.

(** [try: m  finally: fin].  The [finally] block runs when [m] returns and
    when [m] raises; an exception of [fin] replaces the one in flight. *)
Definition try_finally {A} (m : M A) (fin : M unit) : M A :=
  match m with
  | (t, Pending) => (t, Pending)
  | (t, o) =>
      match fin with
      | (t', Return _) => ((t ++ t')%list, o)
      | (t', Raise e) => ((t ++ t')%list, Raise e)
      | (t', Pending) => ((t ++ t')%list, Pending)
      end
  end.

(** Performing (or awaiting) an outside call whose outcome is [o]. *)
Definition perform {A} (c : call) (o : outcome A) : M A := ([EvCall c], o).

Definition log (lvl : level) (msg : string) : M unit := tell (EvLog lvl msg).

(** [d[k]], raising [KeyError] when the key is missing. *)
Definition dict_getitem (d : dict) (k : string) : M value :=
  match dict_get d k with
  | Some v => ret v
  | None => raise (Exception ("'" ++ k ++ "'"))
  end.

(** [l[0]], raising [IndexError] on an empty list. *)
Definition list_getitem0 {A} (l : list A) : M A :=
  match l with
  | x :: _ => ret x
  | [] => raise (Exception "list index out of range")
  end.

(** ** The outside world *)

(** Modelled from the spec: the embedding-model client class is not under
    src/; the probe reads its [model_type] and [model_name] attributes and
    awaits [create_embedding], which yields one vector per input text. *)
Record EmbeddingModel : Type := {
  model_type : string;
  model_name : string;
  create_embedding : list string -> outcome (list (list Q))
}.

(** Modelled from the spec: setting/setting.py is not under src/.  The
    fields are those the three files read; a platform-specific
    configuration record is a Python value ([None] when absent). *)
Record VectorSettings : Type := {
  platform : string;
  pgvector : value;
  qdrant : value;
  chroma : value;
  embedding_provider : string;
  embedding_model : string
}.

Record Settings : Type := { vector : VectorSettings }.

(** How each collaborator answers during one run.  [None] from the
    settings loader stands for a falsy settings object. *)
Record World : Type := {
  get_we0_index_settings : outcome (option Settings);
  init_app : outcome unit;
  get_dimension : outcome Z;
  get_embedding_model : outcome EmbeddingModel;
  loop_time : Q;
  log_start : outcome unit;
  log_close : outcome unit;
  init_vector : outcome unit;
  environ : gmap string string
}.

(** [settings.vector] on what the loader returned. *)
Definition getattr_vector (settings : option Settings) : M VectorSettings :=
  match settings with
  | Some s => ret (vector s)
  | None => raise (Exception "'NoneType' object has no attribute 'vector'")
  end.

(** ** utils/health_check.py *)

Definition vector_probe_body (w : World) : M dict :=
  settings <- perform GetSettings (get_we0_index_settings w) ;;
  perform InitApp (init_app w) ;;;
  dimension <- perform GetDimension (get_dimension w) ;;
  v <- getattr_vector settings ;;
  ret [("status", VStr "healthy");
       ("platform", VStr (platform v));
       ("dimension", VInt dimension);
       ("embedding_provider", VStr (embedding_provider v));
       ("embedding_model", VStr (embedding_model v))].

Definition unhealthy_record (e : exn) : dict :=
  [("status", VStr "unhealthy"); ("error", VStr (str e))].

Definition check_vector_database_health (w : World) : M dict :=
  try_except (vector_probe_body w)
    (fun e =>
       log ERROR ("Vector database health check failed: " ++ str e) ;;;
       ret (unhealthy_record e)).

Definition embedding_probe_body (w : World) : M dict :=
  embedding_model <- perform GetEmbeddingModel (get_embedding_model w) ;;
  test_embeddings <-
    perform (CreateEmbedding ["health check test"])
            (create_embedding embedding_model ["health check test"]) ;;
  dimension <-
    (if negb (Nat.eqb (length test_embeddings) 0)
     then first <- list_getitem0 test_embeddings ;;
          ret (Z.of_nat (length first))
     else ret 0) ;;
  ret [("status", VStr "healthy");
       ("dimension", VInt dimension);
       ("provider", VStr (model_type embedding_model));
       ("model", VStr (model_name embedding_model))].

Definition check_embedding_service_health (w : World) : M dict :=
  try_except (embedding_probe_body w)
    (fun e =>
       log ERROR ("Embedding service health check failed: " ++ str e) ;;;
       ret (unhealthy_record e)).

(** [results["services"][name] = health] *)
Definition services_setitem (results : dict) (name : string) (health : value)
  : M dict :=
  services <- dict_getitem results "services" ;;
  match services with
  | VDict sv => ret (dict_set results "services" (VDict (dict_set sv name health)))
  | _ => raise (Exception "object does not support item assignment")
  end.

(** [v.items()] *)
Definition dict_items (v : value) : M dict :=
  match v with
  | VDict d => ret d
  | _ => raise (Exception "object has no attribute 'items'")
  end.

(** [health.get(k)] *)
Definition value_get (health : value) (k : string) : M (option value) :=
  match health with
  | VDict d => ret (dict_get d k)
  | _ => raise (Exception "object has no attribute 'get'")
  end.

(** [[service for service, health in items
      if health.get("status") != "healthy"]] *)
Fixpoint unhealthy_names (items : dict) : M (list string) :=
  match items with
  | [] => ret []
  | (service, health) :: rest =>
      st <- value_get health "status" ;;
      tl <- unhealthy_names rest ;;
      ret (if py_ne_str st "healthy" then service :: tl else tl)
  end.

Definition comprehensive_health_check (w : World) : M dict :=
  now <- perform LoopTime (Return (loop_time w)) ;;
  let results := [("overall_status", VStr "healthy");
                  ("timestamp", VFloat now);
                  ("services", VDict [])] in
  vector_health <- check_vector_database_health w ;;
  results <- services_setitem results "vector_database" (VDict vector_health) ;;
  embedding_health <- check_embedding_service_health w ;;
  results <- services_setitem results "embedding_service" (VDict embedding_health) ;;
  services <- dict_getitem results "services" ;;
  items <- dict_items services ;;
  unhealthy_services <- unhealthy_names items ;;
  match unhealthy_services with
  | [] => ret results
  | _ :: _ =>
      let results := dict_set results "overall_status" (VStr "unhealthy") in
      let results := dict_set results "unhealthy_services"
                       (VList (map VStr unhealthy_services)) in
      ret results
  end.

(** ** launch/launch.py *)

Definition initialize_extensions (w : World) : M (list unit) :=
  tell (EvEnter "initialize_extensions") ;;;
  r <- perform InitVector (init_vector w) ;;
  ret [r].

(** The body of [close_extensions] is the placeholder [...]. *)
Definition close_extensions : M unit :=
  tell (EvEnter "close_extensions") ;;;
  ret tt.

(** The async context manager [lifespan]; [serving] is what happens at the
    [yield] until the host resumes the generator (normally, or by throwing
    an exception into it). *)
Definition lifespan (w : World) (serving : M unit) : M unit :=
  try_finally
    (perform LogStart (log_start w) ;;;
     initialize_extensions w ;;;
     serving)
    (close_extensions ;;;
     perform LogClose (log_close w)).

Record JSONResponse : Type := {
  content : dict;
  status_code : Z
}.

(** The GET /health handler, over the aggregator it awaits. *)
Definition health_check_over (aggregator : M dict) : M JSONResponse :=
  try_except
    (health_status <- aggregator ;;
     overall <- dict_getitem health_status "overall_status" ;;
     let status_code := if py_eq_str overall "healthy" then 200 else 503 in
     ret {| content := health_status; status_code := status_code |})
    (fun e =>
       log ERROR "Health check failed" ;;;
       ret {| content := [("status", VStr "unhealthy"); ("error", VStr (str e))];
              status_code := 503 |}).

Definition health_check (w : World) : M JSONResponse :=
  health_check_over (comprehensive_health_check w).

(** ** config/validation.py *)

(** [not os.environ.get(k)] *)
Definition environ_unset (env : gmap string string) (k : string) : bool :=
  match env !! k with
  | Some s => String.eqb s ""
  | None => true
  end.

Definition check_api_keys (v : VectorSettings) (env : gmap string string) : M bool :=
  (if String.eqb (embedding_provider v) "openai"
   then if environ_unset env "OPENAI_API_KEY"
        then log WARNING "OPENAI_API_KEY not set"
        else ret tt
   else ret tt) ;;;
  (if String.eqb (embedding_provider v) "jina"
   then if environ_unset env "JINA_API_KEY"
        then log WARNING "JINA_API_KEY not set"
        else ret tt
   else ret tt) ;;;
  log INFO "Environment validation completed" ;;;
  ret true.

Definition validate_environment (w : World) : M bool :=
  try_except
    (settings <- perform GetSettings (get_we0_index_settings w) ;;
     match settings with
     | None => log ERROR "Failed to load settings" ;;; ret false
     | Some s =>
         let v := vector s in
         if String.eqb (platform v) "pgvector" then
           if negb (truthy (pgvector v))
           then log ERROR "PgVector configuration is missing" ;;; ret false
           else check_api_keys v (environ w)
         else if String.eqb (platform v) "qdrant" then
           if negb (truthy (qdrant v))
           then log ERROR "Qdrant configuration is missing" ;;; ret false
           else check_api_keys v (environ w)
         else if String.eqb (platform v) "chroma" then
           if negb (truthy (chroma v))
           then log ERROR "Chroma configuration is missing" ;;; ret false
           else check_api_keys v (environ w)
         else check_api_keys v (environ w)
     end)
    (fun e => log ERROR ("Validation failed: " ++ str e) ;;; ret false).

(** ** scripts/validate_project.py *)

(** [main]; [import_validation] is how the statement
    [from config.validation import validate_environment] ends
    ([from loguru import logger] and the logger calls are taken to
    succeed, as everywhere else).  The [try] block either returns early
    ([Some b]) or falls through ([None]). *)
Definition main (import_validation : outcome unit) (w : World) : M bool :=
  log INFO "Starting project validation..." ;;;
  early <-
    try_except
      (([], import_validation) ;;;
       log INFO "1. Validating environment configuration..." ;;;
       ok <- validate_environment w ;;
       if negb ok
       then log ERROR "Environment validation failed" ;;; ret (Some false)
       else ret None)
      (fun e =>
         log ERROR ("Environment validation error: " ++ str e) ;;;
         ret (Some false)) ;;
  match early with
  | Some b => ret b
  | None =>
      log INFO "Project validation completed successfully!" ;;;
      ret true
  end.

(** [sys.exit(0 if success else 1)] *)
Definition exit_status (success : bool) : Z := if success then 0 else 1.

(** ** constants/constants.py *)

(** [b.startswith("/")] *)
Definition startswith_sep (b : string) : bool :=
  match b with
  | String c _ => Ascii.eqb c "/"%char
  | EmptyString => false
  end.

(** [path.endswith("/")] *)
Fixpoint endswith_sep (path : string) : bool :=
  match path with
  | EmptyString => false
  | String c EmptyString => Ascii.eqb c "/"%char
  | String _ rest => endswith_sep rest
  end.

(** [os.path.join(a, b)] of posixpath: an absolute [b] replaces [a];
    otherwise [b] is appended, after a separator unless [a] is empty or
    already ends with one. *)
Definition path_join (a b : string) : string :=
  if startswith_sep b then b
  else if String.eqb a "" || endswith_sep a then a ++ b
  else a ++ "/" ++ b.

(** The class attributes of [Constants.Path], over the value [root] of
    [os.path.dirname(os.path.dirname(os.path.abspath(__file__)))]. *)
Definition LOG_PATH (root : string) : string := path_join root "log".
Definition RESOURCE_PATH (root : string) : string := path_join root "resource".
Definition ENV_FILE_PATH (root : string) : string := path_join root ".env".
Definition TEMP_PATH : string := "/tmp".
Definition QDRANT_DEFAULT_DISK_PATH (root : string) : string :=
  path_join (path_join root "vector") "qdrant".
Definition CHROMA_DEFAULT_DISK_PATH (root : string) : string :=
  path_join (path_join root "vector") "chroma".

(** The two functions of python-dotenv that [get_yaml_file_path] calls:
    [load_dotenv path env] is [os.environ] as the call leaves it, and
    [find_dotenv filename] is the path found, or the empty string. *)
Record Dotenv : Type := {
  load_dotenv : string -> gmap string string -> gmap string string;
  find_dotenv : string -> string
}.

(** [os.environ.get(k, default)] *)
Definition environ_get (env : gmap string string) (k default : string) : string :=
  match env !! k with
  | Some s => s
  | None => default
  end.

(** [x or y] on strings. *)
Definition str_or (x y : string) : string :=
  if String.eqb x "" then y else x.

(** The candidate [yaml_file] of [get_yaml_file_path]. *)
Definition yaml_file (root : string) (env : gmap string string) : string :=
  let env_name := environ_get env "WE0_INDEX_ENV" "dev" in
  path_join (RESOURCE_PATH root) (env_name ++ ".yaml").

(** [Constants.Path.get_yaml_file_path()]: the path returned, and
    [os.environ] afterwards. *)
Definition get_yaml_file_path (lib : Dotenv) (root : string)
    (env : gmap string string) : string * gmap string string :=
  let env := load_dotenv lib (ENV_FILE_PATH root) env in
  let candidate := yaml_file root env in
  (str_or (find_dotenv lib candidate) candidate, env).

(** * Vocabulary of the properties *)

(** A record logged at level ERROR. *)
Definition is_error_log (ev : event) : bool :=
  match ev with EvLog ERROR _ => true | _ => false end.

(** [health.get("status") != "healthy"] on a probe record. *)
Definition not_healthy (h : dict) : bool :=
  py_ne_str (dict_get h "status") "healthy".

(** Closed form of the report that the aggregator builds once both probes
    have handed back their records. *)
Definition compose_report (now : Q) (vh eh : dict) : dict :=
  let services :=
    VDict [("vector_database", VDict vh); ("embedding_service", VDict eh)] in
  match ((if not_healthy vh then ["vector_database"] else []) ++
         (if not_healthy eh then ["embedding_service"] else []))%list with
  | [] =>
      [("overall_status", VStr "healthy");
       ("timestamp", VFloat now);
       ("services", services)]
  | names =>
      [("overall_status", VStr "unhealthy");
       ("timestamp", VFloat now);
       ("services", services);
       ("unhealthy_services", VList (map VStr names))]
  end.

(** What a probe hands back, in terms of how its [try] body ended. *)
Inductive probe_record (body : outcome dict) : dict -> Prop :=
| probe_ok d :
    body = Return d ->
    dict_get d "status" = Some (VStr "healthy") ->
    probe_record body d
| probe_failed e :
    body = Raise e ->
    probe_record body (unhealthy_record e).

(** A [services] entry whose [status] is ["healthy"]. *)
Definition entry_healthy (v : value) : Prop :=
  exists h, v = VDict h /\ dict_get h "status" = Some (VStr "healthy").

(** Every entry of the report's [services] mapping is healthy. *)
Definition all_services_healthy (r : dict) : Prop :=
  exists sv, dict_get r "services" = Some (VDict sv) /\
             Forall (fun kv => entry_healthy (snd kv)) sv.

(** Every call that the two probes get to await is answered (returns or
    raises); a call that is never reached, because an earlier one of the
    same probe raised, need not be. *)
Definition responsive (w : World) : bool :=
  match get_we0_index_settings w with
  | Return _ =>
      match init_app w with
      | Return _ => negb (is_pending (get_dimension w))
      | Raise _ => true
      | Pending => false
      end
  | Raise _ => true
  | Pending => false
  end &&
  match get_embedding_model w with
  | Return m => negb (is_pending (create_embedding m ["health check test"]))
  | Raise _ => true
  | Pending => false
  end.

(** The embedding probe has been started during the run of the
    aggregator: its first call went out. *)
Definition embedding_probe_launched (w : World) : Prop :=
  In (EvCall GetEmbeddingModel) (trace (comprehensive_health_check w)).

(** The entry stored for [name] in the report's [services] mapping. *)
Definition service_entry (r : dict) (name : string) : option value :=
  match dict_get r "services" with
  | Some (VDict sv) => dict_get sv name
  | _ => None
  end.

(** The entry for [name] does not carry [status = "healthy"]. *)
Definition service_not_healthy (r : dict) (name : string) : bool :=
  match service_entry r name with
  | Some (VDict h) => not_healthy h
  | _ => true
  end.

(** The minimal body, with status 503, that GET /health answers with when
    the aggregator raised [e]. *)
Definition error_response (e : exn) : JSONResponse :=
  {| content := [("status", VStr "unhealthy"); ("error", VStr (str e))];
     status_code := 503 |}.

(** A record logged at level WARNING. *)
Definition is_warning (ev : event) : bool :=
  match ev with EvLog WARNING _ => true | _ => false end.

Definition not_warning (ev : event) : bool := negb (is_warning ev).

(** The test of the list comprehension on one [services] entry that is
    a dict. *)
Definition entry_not_healthy (v : value) : bool :=
  match v with
  | VDict h => not_healthy h
  | _ => true
  end.

Definition is_dict (v : value) : bool :=
  match v with VDict _ => true | _ => false end.

(** * Sample worlds *)

Definition sample_vector_settings : VectorSettings :=
  {| platform := "qdrant";
     pgvector := VNone;
     qdrant := VDict [("mode", VStr "disk")];
     chroma := VNone;
     embedding_provider := "openai";
     embedding_model := "text-embedding-3-small" |}.

Definition sample_model (answer : outcome (list (list Q))) : EmbeddingModel :=
  {| model_type := "openai";
     model_name := "text-embedding-3-small";
     create_embedding := fun _ => answer |}.

(** Every collaborator answers; the embedding call yields one vector of
    three components. *)
Definition world_ok : World :=
  {| get_we0_index_settings := Return (Some {| vector := sample_vector_settings |});
     init_app := Return tt;
     get_dimension := Return 1536;
     get_embedding_model := Return (sample_model (Return [[1; 0; 0]%Q]));
     loop_time := 12 # 1;
     log_start := Return tt;
     log_close := Return tt;
     init_vector := Return tt;
     environ := ∅ |}.

Definition with_embedding_model (w : World) (o : outcome EmbeddingModel) : World :=
  {| get_we0_index_settings := get_we0_index_settings w;
     init_app := init_app w;
     get_dimension := get_dimension w;
     get_embedding_model := o;
     loop_time := loop_time w;
     log_start := log_start w;
     log_close := log_close w;
     init_vector := init_vector w;
     environ := environ w |}.

Definition with_init_app (w : World) (o : outcome unit) : World :=
  {| get_we0_index_settings := get_we0_index_settings w;
     init_app := o;
     get_dimension := get_dimension w;
     get_embedding_model := get_embedding_model w;
     loop_time := loop_time w;
     log_start := log_start w;
     log_close := log_close w;
     init_vector := init_vector w;
     environ := environ w |}.

Definition with_init_vector (w : World) (o : outcome unit) : World :=
  {| get_we0_index_settings := get_we0_index_settings w;
     init_app := init_app w;
     get_dimension := get_dimension w;
     get_embedding_model := get_embedding_model w;
     loop_time := loop_time w;
     log_start := log_start w;
     log_close := log_close w;
     init_vector := o;
     environ := environ w |}.

Definition with_environ (w : World) (env : gmap string string) : World :=
  {| get_we0_index_settings := get_we0_index_settings w;
     init_app := init_app w;
     get_dimension := get_dimension w;
     get_embedding_model := get_embedding_model w;
     loop_time := loop_time w;
     log_start := log_start w;
     log_close := log_close w;
     init_vector := init_vector w;
     environ := env |}.

Definition with_settings (w : World) (o : outcome (option Settings)) : World :=
  {| get_we0_index_settings := o;
     init_app := init_app w;
     get_dimension := get_dimension w;
     get_embedding_model := get_embedding_model w;
     loop_time := loop_time w;
     log_start := log_start w;
     log_close := log_close w;
     init_vector := init_vector w;
     environ := environ w |}.

(** The embedding call is rejected (scenario B of the design notes). *)
Definition world_embedding_auth_error : World :=
  with_embedding_model world_ok
    (Return (sample_model (Raise (Exception "401 Unauthorized")))).

(** The embedding call yields no vector at all (scenario C). *)
Definition world_empty_embedding : World :=
  with_embedding_model world_ok (Return (sample_model (Return []))).

(** Both probes fail (scenario D). *)
Definition world_both_fail : World :=
  with_init_app
    (with_embedding_model world_ok (Raise (Exception "vector not initialized")))
    (Raise (Exception "connection refused")).

(** The backend never answers [init_app]; the embedding side would. *)
Definition world_vector_stalled : World := with_init_app world_ok Pending.

Definition report_both_fail : dict :=
  [("overall_status", VStr "unhealthy");
   ("timestamp", VFloat (12 # 1));
   ("services",
    VDict [("vector_database",
            VDict [("status", VStr "unhealthy");
                   ("error", VStr "connection refused")]);
           ("embedding_service",
            VDict [("status", VStr "unhealthy");
                   ("error", VStr "vector not initialized")])]);
   ("unhealthy_services",
    VList [VStr "vector_database"; VStr "embedding_service"])].

Definition report_embedding_auth_error : dict :=
  [("overall_status", VStr "unhealthy");
   ("timestamp", VFloat (12 # 1));
   ("services",
    VDict [("vector_database",
            VDict [("status", VStr "healthy");
                   ("platform", VStr "qdrant");
                   ("dimension", VInt 1536);
                   ("embedding_provider", VStr "openai");
                   ("embedding_model", VStr "text-embedding-3-small")]);
           ("embedding_service",
            VDict [("status", VStr "unhealthy");
                   ("error", VStr "401 Unauthorized")])]);
   ("unhealthy_services", VList [VStr "embedding_service"])].

Definition settings_pgvector_empty : Settings :=
  {| vector :=
       {| platform := "pgvector";
          pgvector := VDict [];
          qdrant := VDict [("mode", VStr "disk")];
          chroma := VNone;
          embedding_provider := "jina";
          embedding_model := "jina-embeddings-v2-base-code" |} |}.

Definition settings_unknown_platform : Settings :=
  {| vector :=
       {| platform := "milvus";
          pgvector := VNone;
          qdrant := VNone;
          chroma := VNone;
          embedding_provider := "openai";
          embedding_model := "text-embedding-3-small" |} |}.

(** Like [settings_pgvector_empty], with other records for the platforms
    that are not selected and another model name. *)
Definition settings_pgvector_none : Settings :=
  {| vector :=
       {| platform := "pgvector";
          pgvector := VNone;
          qdrant := VNone;
          chroma := VDict [("path", VStr "/var/chroma")];
          embedding_provider := "jina";
          embedding_model := "jina-embeddings-v3" |} |}.

(** Startup cannot reach the backend. *)
Definition world_no_backend : World :=
  with_init_vector world_ok (Raise (Exception "no backend")).

(** A python-dotenv that finds no file: nothing is loaded into the
    environment and no path is found. *)
Definition dotenv_no_files : Dotenv :=
  {| load_dotenv := fun _ env => env;
     find_dotenv := fun _ => "" |}.

Definition with_log (w : World) (start close : outcome unit) : World :=
  {| get_we0_index_settings := get_we0_index_settings w;
     init_app := init_app w;
     get_dimension := get_dimension w;
     get_embedding_model := get_embedding_model w;
     loop_time := loop_time w;
     log_start := start;
     log_close := close;
     init_vector := init_vector w;
     environ := environ w |}.

(** [Log.start()] fails. *)
Definition world_log_unwritable : World :=
  with_log world_ok (Raise (Exception "log directory is read-only")) (Return tt).

(** Startup cannot reach the backend, and [Log.close()] fails too. *)
Definition world_log_close_fails : World :=
  with_log world_no_backend (Return tt) (Raise (Exception "disk full")).

(** * Properties *)

(** ** The monad *)

Section MonadFacts.
Context {A B : Type}.

Lemma result_bind (m : M A) (f : A -> M B) :
  result (bind m f) =
  match result m with
  | Return a => result (f a)
  | Raise e => Raise e
  | Pending => Pending
  end.
Proof.
  destruct m as [t [a | e |]]; cbn; try reflexivity.
  destruct (f a); reflexivity.
Qed.

Lemma trace_bind (m : M A) (f : A -> M B) :
  trace (bind m f) =
  (trace m ++ match result m with
              | Return a => trace (f a)
              | _ => []
              end)%list.
Proof.
  destruct m as [t [a | e |]]; cbn; try (symmetry; apply app_nil_r).
  destruct (f a); reflexivity.
Qed.

Lemma result_try_except (m : M A) (h : exn -> M A) :
  result (try_except m h) =
  match result m with
  | Raise e => result (h e)
  | o => o
  end.
Proof.
  destruct m as [t [a | e |]]; cbn; try reflexivity.
  destruct (h e); reflexivity.
Qed.

Lemma trace_try_except (m : M A) (h : exn -> M A) :
  trace (try_except m h) =
  (trace m ++ match result m with
              | Raise e => trace (h e)
              | _ => []
              end)%list.
Proof.
  destruct m as [t [a | e |]]; cbn; try (symmetry; apply app_nil_r).
  destruct (h e); reflexivity.
Qed.

Lemma surjective_run (m : M A) : m = (trace m, result m).
Proof. destruct m; reflexivity. Qed.
End MonadFacts.

Lemma trace_try_finally {A} (m : M A) (fin : M unit) :
  trace (try_finally m fin) =
  (trace m ++ if is_pending (result m) then [] else trace fin)%list.
Proof.
  destruct m as [t [a | e |]], fin as [t' [[] | e' |]]; cbn;
    try reflexivity; symmetry; apply app_nil_r.
Qed.

Lemma result_try_finally {A} (m : M A) (fin : M unit) :
  result (try_finally m fin) =
  match result m, result fin with
  | Pending, _ => Pending
  | o, Return _ => o
  | _, Raise e => Raise e
  | _, Pending => Pending
  end.
Proof.
  destruct m as [t [a | e |]], fin as [t' [[] | e' |]]; reflexivity.
Qed.

(** ** The two probes *)

(** A probe's [except] clause turns every exception into a record. *)
Lemma check_vector_database_health_result (w : World) :
  result (check_vector_database_health w) =
  match result (vector_probe_body w) with
  | Return d => Return d
  | Raise e => Return (unhealthy_record e)
  | Pending => Pending
  end.
Proof.
  unfold check_vector_database_health. rewrite result_try_except.
  destruct (result (vector_probe_body w)); reflexivity.
Qed.

Lemma check_embedding_service_health_result (w : World) :
  result (check_embedding_service_health w) =
  match result (embedding_probe_body w) with
  | Return d => Return d
  | Raise e => Return (unhealthy_record e)
  | Pending => Pending
  end.
Proof.
  unfold check_embedding_service_health. rewrite result_try_except.
  destruct (result (embedding_probe_body w)); reflexivity.
Qed.

Lemma vector_probe_body_healthy (w : World) (d : dict) :
  result (vector_probe_body w) = Return d ->
  dict_get d "status" = Some (VStr "healthy").
Proof.
  unfold vector_probe_body. rewrite !result_bind. cbn.
  destruct (get_we0_index_settings w) as [[s |] | |]; try discriminate;
    destruct (init_app w); try discriminate;
    destruct (get_dimension w); try discriminate; cbn;
    intros [= <-]; reflexivity.
Qed.

Lemma embedding_probe_body_healthy (w : World) (d : dict) :
  result (embedding_probe_body w) = Return d ->
  dict_get d "status" = Some (VStr "healthy").
Proof.
  unfold embedding_probe_body, perform.
  destruct (get_embedding_model w) as [m | |]; try discriminate.
  cbn. destruct (create_embedding m _) as [[| v vs] | |];
    try discriminate; cbn; intros [= <-]; reflexivity.
Qed.

(** ** The aggregator *)

(** The aggregator is the clock reading, then the vector probe, then the
    embedding probe, then a pure composition step. *)
Lemma comprehensive_health_check_run (w : World) :
  comprehensive_health_check w =
  match check_vector_database_health w with
  | (tv, Return vh) =>
      match check_embedding_service_health w with
      | (te, Return eh) =>
          ((EvCall LoopTime :: tv ++ te)%list,
           Return (compose_report (loop_time w) vh eh))
      | (te, Raise e) => ((EvCall LoopTime :: tv ++ te)%list, Raise e)
      | (te, Pending) => ((EvCall LoopTime :: tv ++ te)%list, Pending)
      end
  | (tv, Raise e) => (EvCall LoopTime :: tv, Raise e)
  | (tv, Pending) => (EvCall LoopTime :: tv, Pending)
  end.
Proof.
  unfold comprehensive_health_check.
  destruct (check_vector_database_health w) as [tv [vh | e |]];
    [| reflexivity | reflexivity].
  destruct (check_embedding_service_health w) as [te [eh | e |]];
    cbn; rewrite ?app_nil_r; [| reflexivity | reflexivity].
  unfold compose_report, not_healthy.
  destruct (py_ne_str (dict_get vh "status") "healthy"),
           (py_ne_str (dict_get eh "status") "healthy");
    cbn; rewrite ?app_nil_r; reflexivity.
Qed.

Lemma comprehensive_health_check_result (w : World) :
  result (comprehensive_health_check w) =
  match result (check_vector_database_health w) with
  | Return vh =>
      match result (check_embedding_service_health w) with
      | Return eh => Return (compose_report (loop_time w) vh eh)
      | Raise e => Raise e
      | Pending => Pending
      end
  | Raise e => Raise e
  | Pending => Pending
  end.
Proof.
  rewrite comprehensive_health_check_run.
  destruct (check_vector_database_health w) as [tv [vh | e |]];
    try reflexivity.
  destruct (check_embedding_service_health w) as [te [eh | e |]];
    reflexivity.
Qed.

Lemma probe_record_not_healthy (body : outcome dict) (d : dict) :
  probe_record body d -> not_healthy d = negb (is_return body).
Proof.
  intros [d' -> Hs | e ->]; unfold not_healthy; cbn.
  - rewrite Hs. reflexivity.
  - reflexivity.
Qed.

Lemma vector_probe_record (w : World) (vh : dict) :
  result (check_vector_database_health w) = Return vh ->
  probe_record (result (vector_probe_body w)) vh.
Proof.
  rewrite check_vector_database_health_result.
  destruct (result (vector_probe_body w)) as [d | e |] eqn:E;
    intros [= <-].
  - apply probe_ok with (d := d); [reflexivity |].
    apply (vector_probe_body_healthy w), E.
  - apply probe_failed. reflexivity.
Qed.

Lemma embedding_probe_record (w : World) (eh : dict) :
  result (check_embedding_service_health w) = Return eh ->
  probe_record (result (embedding_probe_body w)) eh.
Proof.
  rewrite check_embedding_service_health_result.
  destruct (result (embedding_probe_body w)) as [d | e |] eqn:E;
    intros [= <-].
  - apply probe_ok with (d := d); [reflexivity |].
    apply (embedding_probe_body_healthy w), E.
  - apply probe_failed. reflexivity.
Qed.

(** Inversion: a returned report is the composition of two returned
    probe records. *)
Lemma comprehensive_health_check_inv (w : World) (r : dict) :
  result (comprehensive_health_check w) = Return r ->
  exists vh eh,
    result (check_vector_database_health w) = Return vh /\
    result (check_embedding_service_health w) = Return eh /\
    probe_record (result (vector_probe_body w)) vh /\
    probe_record (result (embedding_probe_body w)) eh /\
    r = compose_report (loop_time w) vh eh.
Proof.
  rewrite comprehensive_health_check_result.
  destruct (result (check_vector_database_health w)) as [vh | |] eqn:Ev;
    try discriminate.
  destruct (result (check_embedding_service_health w)) as [eh | |] eqn:Ee;
    try discriminate.
  intros [= <-]. exists vh, eh.
  repeat split; auto using vector_probe_record, embedding_probe_record.
Qed.

Lemma py_ne_str_false (o : option value) (s : string) :
  py_ne_str o s = false <-> o = Some (VStr s).
Proof.
  destruct o as [[| s' | | | |] |]; cbn; split; try discriminate.
  - rewrite negb_false_iff, String.eqb_eq. intros ->. reflexivity.
  - intros [= ->]. rewrite negb_false_iff. apply String.eqb_refl.
Qed.

Lemma not_healthy_false (h : dict) :
  not_healthy h = false <-> dict_get h "status" = Some (VStr "healthy").
Proof. apply py_ne_str_false. Qed.

Section ComposeReport.
Variables (now : Q) (vh eh : dict).

Lemma compose_report_overall_status :
  dict_get (compose_report now vh eh) "overall_status" =
  Some (VStr (if not_healthy vh || not_healthy eh
              then "unhealthy" else "healthy")).
Proof.
  unfold compose_report.
  destruct (not_healthy vh), (not_healthy eh); reflexivity.
Qed.

Lemma compose_report_services :
  dict_get (compose_report now vh eh) "services" =
  Some (VDict [("vector_database", VDict vh);
               ("embedding_service", VDict eh)]).
Proof.
  unfold compose_report.
  destruct (not_healthy vh), (not_healthy eh); reflexivity.
Qed.

Lemma compose_report_unhealthy_services :
  dict_get (compose_report now vh eh) "unhealthy_services" =
  if not_healthy vh || not_healthy eh
  then Some (VList (map VStr
         ((if not_healthy vh then ["vector_database"] else []) ++
          (if not_healthy eh then ["embedding_service"] else []))%list))
  else None.
Proof.
  unfold compose_report.
  destruct (not_healthy vh), (not_healthy eh); reflexivity.
Qed.
End ComposeReport.

Lemma entry_healthy_dict (h : dict) :
  entry_healthy (VDict h) <-> not_healthy h = false.
Proof.
  rewrite not_healthy_false. split.
  - intros (h' & [= <-] & Hs). exact Hs.
  - intros Hs. exists h. split; [reflexivity | exact Hs].
Qed.

Lemma compose_report_all_healthy (now : Q) (vh eh : dict) :
  all_services_healthy (compose_report now vh eh) <->
  not_healthy vh || not_healthy eh = false.
Proof.
  unfold all_services_healthy. rewrite compose_report_services.
  rewrite orb_false_iff, <- !entry_healthy_dict. split.
  - intros (sv & [= <-] & Hall).
    inversion Hall as [| ? ? Hv Hrest]; subst.
    inversion Hrest as [| ? ? He _]; subst. split; assumption.
  - intros [Hv He]. eexists. split; [reflexivity |].
    repeat constructor; assumption.
Qed.

(** C1. For every way the two probes can end, the report returned by
    [comprehensive_health_check] has [overall_status = "healthy"] exactly
    when every entry of its [services] mapping has [status = "healthy"];
    this is the case exactly when the bodies of both probes ran to their
    [return], and otherwise [overall_status] is ["unhealthy"]. *)
Theorem overall_status_healthy_iff (w : World) (r : dict) :
  result (comprehensive_health_check w) = Return r ->
  (dict_get r "overall_status" = Some (VStr "healthy") <->
   all_services_healthy r) /\
  (dict_get r "overall_status" = Some (VStr "healthy") <->
   is_return (result (vector_probe_body w)) = true /\
   is_return (result (embedding_probe_body w)) = true) /\
  (dict_get r "overall_status" <> Some (VStr "healthy") ->
   dict_get r "overall_status" = Some (VStr "unhealthy")).
Proof.
  intros Hr.
  destruct (comprehensive_health_check_inv w r Hr)
    as (vh & eh & _ & _ & Hv & He & ->).
  rewrite compose_report_overall_status, compose_report_all_healthy.
  rewrite (probe_record_not_healthy _ _ Hv), (probe_record_not_healthy _ _ He).
  destruct (is_return (result (vector_probe_body w))),
           (is_return (result (embedding_probe_body w))); cbn;
    repeat split; try discriminate; try tauto; intros []; discriminate.
Qed.

Example scenario_B :
  result (comprehensive_health_check world_embedding_auth_error) =
  Return report_embedding_auth_error.
Proof. reflexivity. Qed.

Example scenario_D :
  result (comprehensive_health_check world_both_fail) = Return report_both_fail.
Proof. reflexivity. Qed.

Lemma overall_status_healthy_iff_witness :
  dict_get report_both_fail "overall_status" = Some (VStr "healthy") <->
  all_services_healthy report_both_fail.
Proof.
  apply (overall_status_healthy_iff world_both_fail report_both_fail).
  reflexivity.
Defined.

Lemma responsive_vector_probe (w : World) :
  is_pending (result (vector_probe_body w)) =
  negb match get_we0_index_settings w with
       | Return _ =>
           match init_app w with
           | Return _ => negb (is_pending (get_dimension w))
           | Raise _ => true
           | Pending => false
           end
       | Raise _ => true
       | Pending => false
       end.
Proof.
  unfold vector_probe_body, perform.
  destruct (get_we0_index_settings w) as [[s |] | |],
           (init_app w), (get_dimension w); reflexivity.
Qed.

Lemma responsive_embedding_probe (w : World) :
  is_pending (result (embedding_probe_body w)) =
  negb match get_embedding_model w with
       | Return m => negb (is_pending (create_embedding m ["health check test"]))
       | Raise _ => true
       | Pending => false
       end.
Proof.
  unfold embedding_probe_body, perform.
  destruct (get_embedding_model w) as [m | |]; cbn; try reflexivity.
  destruct (create_embedding m _) as [[| v vs] | |]; reflexivity.
Qed.

(** The aggregator returns exactly in the responsive worlds. *)
Lemma responsive_iff_returns (w : World) :
  responsive w = is_return (result (comprehensive_health_check w)).
Proof.
  rewrite comprehensive_health_check_result.
  rewrite check_vector_database_health_result,
          check_embedding_service_health_result.
  unfold responsive.
  pose proof (responsive_vector_probe w) as Hv.
  pose proof (responsive_embedding_probe w) as He.
  destruct (result (vector_probe_body w)),
           (result (embedding_probe_body w)); cbn in Hv, He |- *;
    apply (f_equal negb) in Hv, He; rewrite negb_involutive in Hv, He;
    rewrite <- Hv, <- He; reflexivity.
Qed.

Lemma probes_never_raise (w : World) (e : exn) :
  result (check_vector_database_health w) <> Raise e /\
  result (check_embedding_service_health w) <> Raise e.
Proof.
  rewrite check_vector_database_health_result,
          check_embedding_service_health_result.
  destruct (result (vector_probe_body w)),
           (result (embedding_probe_body w)); split; discriminate.
Qed.

(** The first call of the embedding probe is always issued by it. *)
Lemma embedding_probe_starts (w : World) :
  In (EvCall GetEmbeddingModel) (trace (check_embedding_service_health w)).
Proof.
  unfold check_embedding_service_health. rewrite trace_try_except.
  unfold embedding_probe_body at 1. rewrite trace_bind.
  cbn. left. reflexivity.
Qed.

Lemma comprehensive_health_check_trace (w : World) :
  trace (comprehensive_health_check w) =
  (EvCall LoopTime :: trace (check_vector_database_health w) ++
   if is_return (result (check_vector_database_health w))
   then trace (check_embedding_service_health w) else [])%list.
Proof.
  rewrite comprehensive_health_check_run.
  destruct (check_vector_database_health w) as [tv [vh | e |]]; cbn;
    rewrite ?app_nil_r; try reflexivity.
  destruct (check_embedding_service_health w) as [te [eh | e |]];
    reflexivity.
Qed.

(** C2. [comprehensive_health_check] never raises; it returns a report
    exactly when every call the probes get to await is answered, also
    when both probes fail.  An exception [e] raised inside a probe is
    caught there: the probe returns
    [{"status": "unhealthy", "error": str(e)}], this very record is the
    entry of that service in the returned report, the embedding probe is
    still started after a failed vector probe, and whatever the other
    probe returned is stored unchanged next to it. *)
Theorem comprehensive_health_check_never_raises (w : World) :
  (forall e, result (comprehensive_health_check w) <> Raise e) /\
  (responsive w = true <->
   exists r, result (comprehensive_health_check w) = Return r) /\
  (forall e, result (vector_probe_body w) = Raise e ->
     result (check_vector_database_health w) =
       Return [("status", VStr "unhealthy"); ("error", VStr (str e))] /\
     In (EvCall GetEmbeddingModel) (trace (comprehensive_health_check w)) /\
     (forall r, result (comprehensive_health_check w) = Return r ->
        service_entry r "vector_database" =
          Some (VDict [("status", VStr "unhealthy");
                       ("error", VStr (str e))]))) /\
  (forall e, result (embedding_probe_body w) = Raise e ->
     result (check_embedding_service_health w) =
       Return [("status", VStr "unhealthy"); ("error", VStr (str e))] /\
     (forall r, result (comprehensive_health_check w) = Return r ->
        service_entry r "embedding_service" =
          Some (VDict [("status", VStr "unhealthy");
                       ("error", VStr (str e))]))) /\
  (forall r, result (comprehensive_health_check w) = Return r ->
     exists vh eh,
       result (check_vector_database_health w) = Return vh /\
       result (check_embedding_service_health w) = Return eh /\
       dict_get r "services" =
       Some (VDict [("vector_database", VDict vh);
                    ("embedding_service", VDict eh)])).
Proof.
  split; [| split; [| split; [| split]]].
  - intros e. rewrite comprehensive_health_check_result.
    pose proof (probes_never_raise w) as Hn.
    destruct (result (check_vector_database_health w)) as [vh | e' |];
      [| destruct (Hn e') as [Hv _]; congruence | discriminate].
    destruct (result (check_embedding_service_health w)) as [eh | e' |];
      [discriminate | destruct (Hn e') as [_ He]; congruence | discriminate].
  - rewrite responsive_iff_returns.
    destruct (result (comprehensive_health_check w)) as [r | e |]; cbn;
      split; try discriminate; eauto; intros [r' Hr']; discriminate.
  - intros e H. split; [| split].
    + rewrite check_vector_database_health_result, H. reflexivity.
    + rewrite comprehensive_health_check_trace.
      rewrite check_vector_database_health_result, H. cbn.
      right. apply in_or_app. right. apply embedding_probe_starts.
    + intros r Hr.
      destruct (comprehensive_health_check_inv w r Hr)
        as (vh & eh & Hv & _ & _ & _ & ->).
      rewrite check_vector_database_health_result, H in Hv.
      injection Hv as <-.
      unfold service_entry. rewrite compose_report_services. reflexivity.
  - intros e H. split.
    + rewrite check_embedding_service_health_result, H. reflexivity.
    + intros r Hr.
      destruct (comprehensive_health_check_inv w r Hr)
        as (vh & eh & _ & He & _ & _ & ->).
      rewrite check_embedding_service_health_result, H in He.
      injection He as <-.
      unfold service_entry. rewrite compose_report_services. reflexivity.
  - intros r Hr.
    destruct (comprehensive_health_check_inv w r Hr)
      as (vh & eh & Hv & He & _ & _ & ->).
    exists vh, eh. rewrite compose_report_services. auto.
Qed.

Lemma comprehensive_health_check_never_raises_witness :
  (responsive world_both_fail = true /\
   exists r, result (comprehensive_health_check world_both_fail) = Return r) /\
  service_entry report_both_fail "vector_database" =
    Some (VDict [("status", VStr "unhealthy");
                 ("error", VStr "connection refused")]).
Proof.
  split.
  - split; [reflexivity |].
    apply (proj1 (proj1 (proj2
             (comprehensive_health_check_never_raises world_both_fail)))).
    reflexivity.
  - apply (proj2 (proj2 (proj1 (proj2 (proj2
             (comprehensive_health_check_never_raises world_both_fail)))
             (Exception "connection refused") eq_refl))
             report_both_fail).
    reflexivity.
Defined.

(** ** Order of the two probes *)

(** C3, as stated, fails: a vector probe that is still waiting for
    [init_app] keeps the embedding probe from being started at all,
    although the embedding side on its own answers at once. *)
Lemma stalled_vector_probe_blocks_embedding_probe :
  result (check_embedding_service_health world_vector_stalled) =
    Return [("status", VStr "healthy");
            ("dimension", VInt 3);
            ("provider", VStr "openai");
            ("model", VStr "text-embedding-3-small")] /\
  trace (comprehensive_health_check world_vector_stalled) =
    [EvCall LoopTime; EvCall GetSettings; EvCall InitApp] /\
  ~ embedding_probe_launched world_vector_stalled.
Proof.
  split; [reflexivity |]. split; [reflexivity |].
  unfold embedding_probe_launched.
  change (trace (comprehensive_health_check world_vector_stalled))
    with [EvCall LoopTime; EvCall GetSettings; EvCall InitApp].
  intros [H | [H | [H | []]]]; discriminate.
Qed.

(** C3, amended.  The aggregator awaits the vector probe to its end and
    only then starts the embedding probe: the events of a run are the
    clock reading, all events of the vector probe, then all events of the
    embedding probe.  The embedding probe is started whenever the vector
    probe has ended, also when it failed, and a report is composed only
    after both have handed back a record. *)
Theorem probes_run_in_sequence (w : World) :
  trace (comprehensive_health_check w) =
    (EvCall LoopTime :: trace (check_vector_database_health w) ++
     if is_return (result (check_vector_database_health w))
     then trace (check_embedding_service_health w) else [])%list /\
  (result (vector_probe_body w) <> Pending -> embedding_probe_launched w) /\
  (forall r, result (comprehensive_health_check w) = Return r ->
     is_return (result (check_vector_database_health w)) = true /\
     is_return (result (check_embedding_service_health w)) = true).
Proof.
  split; [apply comprehensive_health_check_trace |]. split.
  - intros Hv. unfold embedding_probe_launched.
    rewrite comprehensive_health_check_trace,
            check_vector_database_health_result.
    destruct (result (vector_probe_body w)); [| | congruence]; cbn;
      right; apply in_or_app; right; apply embedding_probe_starts.
  - intros r Hr.
    destruct (comprehensive_health_check_inv w r Hr)
      as (vh & eh & -> & -> & _). split; reflexivity.
Qed.

Lemma probes_run_in_sequence_witness :
  embedding_probe_launched world_both_fail.
Proof.
  apply (probes_run_in_sequence world_both_fail). discriminate.
Defined.

(** ** The [unhealthy_services] key *)

(** C4. In every returned report the key [unhealthy_services] is present
    exactly when [overall_status = "unhealthy"]; the [services] mapping
    has the keys ["vector_database"], ["embedding_service"] in this order,
    and the list under [unhealthy_services] is exactly those of the two
    names, in that order, whose entry is not healthy; when the bodies of
    both probes returned, the key is absent. *)
Theorem unhealthy_services_key (w : World) (r : dict) :
  result (comprehensive_health_check w) = Return r ->
  (dict_get r "unhealthy_services" <> None <->
   dict_get r "overall_status" = Some (VStr "unhealthy")) /\
  (exists sv, dict_get r "services" = Some (VDict sv) /\
              map fst sv = ["vector_database"; "embedding_service"]) /\
  (forall v, dict_get r "unhealthy_services" = Some v ->
     v = VList (map VStr (List.filter (service_not_healthy r)
                            ["vector_database"; "embedding_service"]))) /\
  (is_return (result (vector_probe_body w)) = true ->
   is_return (result (embedding_probe_body w)) = true ->
   dict_get r "unhealthy_services" = None).
Proof.
  intros Hr.
  destruct (comprehensive_health_check_inv w r Hr)
    as (vh & eh & _ & _ & Hv & He & ->).
  assert (Hsv : service_not_healthy (compose_report (loop_time w) vh eh)
                  "vector_database" = not_healthy vh).
  { unfold service_not_healthy, service_entry.
    rewrite compose_report_services. reflexivity. }
  assert (Hse : service_not_healthy (compose_report (loop_time w) vh eh)
                  "embedding_service" = not_healthy eh).
  { unfold service_not_healthy, service_entry.
    rewrite compose_report_services. reflexivity. }
  cbn [List.filter]. rewrite Hsv, Hse.
  rewrite compose_report_unhealthy_services, compose_report_overall_status,
          compose_report_services.
  rewrite (probe_record_not_healthy _ _ Hv), (probe_record_not_healthy _ _ He).
  split; [| split; [| split]].
  - destruct (is_return (result (vector_probe_body w))),
             (is_return (result (embedding_probe_body w))); cbn;
      split; congruence.
  - eexists. split; reflexivity.
  - destruct (is_return (result (vector_probe_body w))),
             (is_return (result (embedding_probe_body w))); cbn;
      intros v [= <-]; reflexivity.
  - intros -> ->. reflexivity.
Qed.

Lemma unhealthy_services_key_witness :
  dict_get report_both_fail "unhealthy_services" <> None <->
  dict_get report_both_fail "overall_status" = Some (VStr "unhealthy").
Proof.
  apply (unhealthy_services_key world_both_fail report_both_fail).
  reflexivity.
Defined.

(** ** Empty embedding result *)

(** C5. When [create_embedding] hands back an empty list, the embedding
    probe does not index into it: no exception arises (nothing is logged
    as an error), and the record reports [dimension = 0] with
    [status = "healthy"]. *)
Theorem empty_embedding_is_dimension_zero (w : World) (m : EmbeddingModel) :
  get_embedding_model w = Return m ->
  create_embedding m ["health check test"] = Return [] ->
  result (embedding_probe_body w) =
    Return [("status", VStr "healthy");
            ("dimension", VInt 0);
            ("provider", VStr (model_type m));
            ("model", VStr (model_name m))] /\
  check_embedding_service_health w =
    ([EvCall GetEmbeddingModel; EvCall (CreateEmbedding ["health check test"])],
     Return [("status", VStr "healthy");
             ("dimension", VInt 0);
             ("provider", VStr (model_type m));
             ("model", VStr (model_name m))]).
Proof.
  intros Hm Hc.
  unfold check_embedding_service_health, embedding_probe_body, perform.
  rewrite Hm. cbn. rewrite Hc. cbn. split; reflexivity.
Qed.

Lemma empty_embedding_is_dimension_zero_witness :
  result (embedding_probe_body world_empty_embedding) =
    Return [("status", VStr "healthy");
            ("dimension", VInt 0);
            ("provider", VStr "openai");
            ("model", VStr "text-embedding-3-small")].
Proof.
  apply (empty_embedding_is_dimension_zero world_empty_embedding
           (sample_model (Return []))); reflexivity.
Defined.

(** ** GET /health *)

Lemma report_has_overall_status (w : World) (r : dict) :
  result (comprehensive_health_check w) = Return r ->
  dict_get r "overall_status" = Some (VStr "healthy") \/
  dict_get r "overall_status" = Some (VStr "unhealthy").
Proof.
  intros Hr.
  destruct (comprehensive_health_check_inv w r Hr)
    as (vh & eh & _ & _ & _ & _ & ->).
  rewrite compose_report_overall_status.
  destruct (not_healthy vh || not_healthy eh); auto.
Qed.

(** C7. The handler answers with the report and status 200 when the
    report's [overall_status] is ["healthy"], with the report and status
    503 otherwise; and when the aggregator it awaits raises, the handler
    does not raise but answers
    [{"status": "unhealthy", "error": <message>}] with status 503. *)
Theorem health_endpoint_status_code :
  (forall (w : World) (r : dict),
     result (comprehensive_health_check w) = Return r ->
     result (health_check w) =
       Return {| content := r;
                 status_code :=
                   if py_ne_str (dict_get r "overall_status") "healthy"
                   then 503 else 200 |}) /\
  (forall (aggregator : M dict) (e : exn),
     result aggregator = Raise e ->
     result (health_check_over aggregator) = Return (error_response e)).
Proof.
  split.
  - intros w r Hr. unfold health_check, health_check_over.
    rewrite result_try_except, result_bind, Hr, result_bind.
    unfold dict_getitem.
    destruct (report_has_overall_status w r Hr) as [-> | ->]; reflexivity.
  - intros aggregator e He. unfold health_check_over.
    rewrite result_try_except, result_bind, He. reflexivity.
Qed.

Lemma health_endpoint_status_code_witness :
  result (health_check world_both_fail) =
    Return {| content := report_both_fail; status_code := 503 |} /\
  result (health_check_over (raise (Exception "boom"))) =
    Return (error_response (Exception "boom")).
Proof.
  split.
  - apply (proj1 health_endpoint_status_code world_both_fail report_both_fail).
    reflexivity.
  - apply (proj2 health_endpoint_status_code). reflexivity.
Defined.

(** ** lifespan *)

(** C8, as stated, fails: in a run where startup succeeds and the host
    shuts down normally, the lifespan exits without any call of the
    backend's [close()]; its [finally] block enters [close_extensions],
    which does nothing, and closes the log. *)
Lemma lifespan_never_closes_backend :
  lifespan world_ok (ret tt) =
    ([EvCall LogStart; EvEnter "initialize_extensions"; EvCall InitVector;
      EvEnter "close_extensions"; EvCall LogClose],
     Return tt) /\
  ~ In (EvCall VectorClose) (trace (lifespan world_ok (ret tt))).
Proof.
  split; [reflexivity |].
  change (trace (lifespan world_ok (ret tt)))
    with [EvCall LogStart; EvEnter "initialize_extensions"; EvCall InitVector;
          EvEnter "close_extensions"; EvCall LogClose].
  intros [H | [H | [H | [H | [H | []]]]]]; discriminate.
Qed.

Lemma close_extensions_in_finally (w : World) (serving : M unit) :
  is_pending (result (lifespan w serving)) = false ->
  In (EvEnter "close_extensions") (trace (lifespan w serving)).
Proof.
  unfold lifespan. rewrite result_try_finally, trace_try_finally.
  set (startup := (perform LogStart (log_start w) ;;;
                   initialize_extensions w ;;; serving)).
  destruct (result startup); cbn; intros H; try discriminate;
    apply in_or_app; right; left; reflexivity.
Qed.

(** C8, amended.  Every execution of the lifespan that comes to an end
    has entered [close_extensions] from the [finally] block, whether or
    not [initialize_extensions] raised; when it raised, the run is:
    start the log, initialise, enter [close_extensions], close the log,
    re-raise.  [close_extensions] itself performs no call at all. *)
Theorem lifespan_always_enters_close_extensions (w : World) (serving : M unit) :
  (is_pending (result (lifespan w serving)) = false ->
   In (EvEnter "close_extensions") (trace (lifespan w serving))) /\
  (forall e, log_start w = Return tt -> init_vector w = Raise e ->
     trace (lifespan w serving) =
       [EvCall LogStart; EvEnter "initialize_extensions"; EvCall InitVector;
        EvEnter "close_extensions"; EvCall LogClose] /\
     (log_close w = Return tt -> result (lifespan w serving) = Raise e)) /\
  close_extensions = ([EvEnter "close_extensions"], Return tt).
Proof.
  split; [apply close_extensions_in_finally |]. split; [| reflexivity].
  intros e Hs Hi. unfold lifespan, initialize_extensions, perform.
  rewrite Hs, Hi. cbn.
  destruct (log_close w) as [[] | e' |]; cbn; split;
    try reflexivity; discriminate.
Qed.

Lemma lifespan_always_enters_close_extensions_witness :
  In (EvEnter "close_extensions")
     (trace (lifespan (with_init_vector world_ok (Raise (Exception "no backend")))
                      (ret tt))).
Proof.
  apply (lifespan_always_enters_close_extensions
           (with_init_vector world_ok (Raise (Exception "no backend"))) (ret tt)).
  reflexivity.
Defined.

(** ** validate_environment *)

(** The API-key check always lets validation through; the environment
    decides nothing but which warnings are logged. *)
Lemma check_api_keys_run (v : VectorSettings) (env : gmap string string) :
  result (check_api_keys v env) = Return true /\
  List.filter not_warning (trace (check_api_keys v env)) =
    [EvLog INFO "Environment validation completed"].
Proof.
  unfold check_api_keys.
  destruct (String.eqb (embedding_provider v) "openai"),
           (String.eqb (embedding_provider v) "jina"),
           (environ_unset env "OPENAI_API_KEY"),
           (environ_unset env "JINA_API_KEY"); split; reflexivity.
Qed.

(** Validation of loaded settings whose platform check passes, or is
    skipped, amounts to the API-key check. *)
Lemma validate_environment_loaded (w : World) (s : Settings) :
  get_we0_index_settings w = Return (Some s) ->
  let v := vector s in
  let keys := check_api_keys v (environ w) in
  validate_environment w =
    if String.eqb (platform v) "pgvector" then
      if truthy (pgvector v)
      then (EvCall GetSettings :: trace keys, Return true)
      else ([EvCall GetSettings; EvLog ERROR "PgVector configuration is missing"],
            Return false)
    else if String.eqb (platform v) "qdrant" then
      if truthy (qdrant v)
      then (EvCall GetSettings :: trace keys, Return true)
      else ([EvCall GetSettings; EvLog ERROR "Qdrant configuration is missing"],
            Return false)
    else if String.eqb (platform v) "chroma" then
      if truthy (chroma v)
      then (EvCall GetSettings :: trace keys, Return true)
      else ([EvCall GetSettings; EvLog ERROR "Chroma configuration is missing"],
            Return false)
    else (EvCall GetSettings :: trace keys, Return true).
Proof.
  intros Hs v keys. unfold validate_environment, perform. rewrite Hs.
  unfold bind at 1. cbv beta iota.
  subst keys v.
  destruct (check_api_keys_run (vector s) (environ w)) as [Hk _].
  destruct (check_api_keys (vector s) (environ w)) as [tk ok].
  cbn in Hk. subst ok.
  destruct (String.eqb (platform (vector s)) "pgvector"),
           (String.eqb (platform (vector s)) "qdrant"),
           (String.eqb (platform (vector s)) "chroma"),
           (truthy (pgvector (vector s))), (truthy (qdrant (vector s))),
           (truthy (chroma (vector s)));
    reflexivity.
Qed.

(** C6. For loaded settings whose platform is ["pgvector"], ["qdrant"] or
    ["chroma"], [validate_environment] returns [True] exactly when the
    configuration record of that platform is non-empty (truthy), and
    [False] when it is empty. *)
Theorem validate_environment_supported_platform (w : World) (s : Settings) :
  get_we0_index_settings w = Return (Some s) ->
  (platform (vector s) = "pgvector" ->
   result (validate_environment w) = Return (truthy (pgvector (vector s)))) /\
  (platform (vector s) = "qdrant" ->
   result (validate_environment w) = Return (truthy (qdrant (vector s)))) /\
  (platform (vector s) = "chroma" ->
   result (validate_environment w) = Return (truthy (chroma (vector s)))).
Proof.
  intros Hs. rewrite (validate_environment_loaded w s Hs). cbv zeta.
  repeat split; intros ->; cbn.
  - destruct (truthy (pgvector (vector s))); reflexivity.
  - destruct (truthy (qdrant (vector s))); reflexivity.
  - destruct (truthy (chroma (vector s))); reflexivity.
Qed.

Lemma validate_environment_supported_platform_witness :
  result (validate_environment
            (with_settings world_ok (Return (Some settings_pgvector_empty)))) =
  Return false.
Proof.
  apply (proj1 (validate_environment_supported_platform
                  (with_settings world_ok (Return (Some settings_pgvector_empty)))
                  settings_pgvector_empty eq_refl)).
  reflexivity.
Defined.

(** C9. With the same settings, [validate_environment] returns the same
    value under any two environments: whether [OPENAI_API_KEY] or
    [JINA_API_KEY] is set changes only which warnings are logged, and
    no other event of the run. *)
Theorem validate_environment_ignores_api_keys
    (w : World) (env' : gmap string string) :
  result (validate_environment (with_environ w env')) =
    result (validate_environment w) /\
  List.filter not_warning (trace (validate_environment (with_environ w env'))) =
    List.filter not_warning (trace (validate_environment w)).
Proof.
  destruct (get_we0_index_settings w) as [[s |] | e |] eqn:Hs.
  - rewrite (validate_environment_loaded w s Hs).
    rewrite (validate_environment_loaded (with_environ w env') s Hs).
    cbv zeta. cbn [environ with_environ].
    destruct (check_api_keys_run (vector s) (environ w)) as [_ H1].
    destruct (check_api_keys_run (vector s) env') as [_ H2].
    destruct (String.eqb (platform (vector s)) "pgvector"),
             (String.eqb (platform (vector s)) "qdrant"),
             (String.eqb (platform (vector s)) "chroma"),
             (truthy (pgvector (vector s))), (truthy (qdrant (vector s))),
             (truthy (chroma (vector s)));
      split; try reflexivity; cbn; rewrite H1, H2; reflexivity.
  - unfold validate_environment. cbn [get_we0_index_settings with_environ].
    rewrite Hs. split; reflexivity.
  - unfold validate_environment. cbn [get_we0_index_settings with_environ].
    rewrite Hs. split; reflexivity.
  - unfold validate_environment. cbn [get_we0_index_settings with_environ].
    rewrite Hs. split; reflexivity.
Qed.

(** C10. For loaded settings whose platform is none of ["pgvector"],
    ["qdrant"], ["chroma"], [validate_environment] looks at no platform
    configuration record: the run is the settings load followed by the
    API-key check, nothing is logged as an error, and [True] is
    returned. *)
Theorem validate_environment_unknown_platform (w : World) (s : Settings) :
  get_we0_index_settings w = Return (Some s) ->
  platform (vector s) <> "pgvector" ->
  platform (vector s) <> "qdrant" ->
  platform (vector s) <> "chroma" ->
  validate_environment w =
    (EvCall GetSettings :: trace (check_api_keys (vector s) (environ w)),
     Return true) /\
  List.filter is_error_log (trace (validate_environment w)) = [].
Proof.
  intros Hs Hp Hq Hc.
  rewrite (validate_environment_loaded w s Hs). cbv zeta.
  apply String.eqb_neq in Hp, Hq, Hc. rewrite Hp, Hq, Hc.
  split; [reflexivity |]. cbn.
  unfold check_api_keys.
  destruct (String.eqb (embedding_provider (vector s)) "openai"),
           (String.eqb (embedding_provider (vector s)) "jina"),
           (environ_unset (environ w) "OPENAI_API_KEY"),
           (environ_unset (environ w) "JINA_API_KEY"); reflexivity.
Qed.

Lemma validate_environment_unknown_platform_witness :
  result (validate_environment
            (with_settings world_ok (Return (Some settings_unknown_platform)))) =
  Return true.
Proof.
  apply (f_equal snd
           (proj1 (validate_environment_unknown_platform
                     (with_settings world_ok (Return (Some settings_unknown_platform)))
                     settings_unknown_platform
                     eq_refl
                     ltac:(discriminate) ltac:(discriminate) ltac:(discriminate)))).
Defined.

(** * Further properties *)

(** ** The vector-database probe *)

(** X1. The three backend calls go out in program order and the probe stops
    at the first one that does not return: [init_app] is awaited exactly
    when the settings loader returned, [get_dimension] exactly when
    [init_app] returned as well. *)
Theorem vector_probe_stops_at_first_failure (w : World) :
  In (EvCall GetSettings) (trace (check_vector_database_health w)) /\
  (In (EvCall InitApp) (trace (check_vector_database_health w)) <->
   is_return (get_we0_index_settings w) = true) /\
  (In (EvCall GetDimension) (trace (check_vector_database_health w)) <->
   is_return (get_we0_index_settings w) = true /\
   is_return (init_app w) = true).
Proof.
  unfold check_vector_database_health, vector_probe_body, perform.
  destruct (get_we0_index_settings w) as [[s |] | e |],
           (init_app w) as [[] | e' |],
           (get_dimension w) as [d | e'' |]; cbn;
    intuition (try discriminate; try congruence).
Qed.

(** X2. The vector probe is healthy exactly when the loader returned a truthy
    settings object and both backend calls returned; its record then
    carries the platform, provider and model of the settings and the
    dimension the backend reported, and nothing is logged. *)
Theorem vector_probe_healthy_iff (w : World) :
  (is_return (result (vector_probe_body w)) = true <->
   exists s d, get_we0_index_settings w = Return (Some s) /\
               init_app w = Return tt /\
               get_dimension w = Return d) /\
  (forall s d,
     get_we0_index_settings w = Return (Some s) ->
     init_app w = Return tt ->
     get_dimension w = Return d ->
     check_vector_database_health w =
       ([EvCall GetSettings; EvCall InitApp; EvCall GetDimension],
        Return [("status", VStr "healthy");
                ("platform", VStr (platform (vector s)));
                ("dimension", VInt d);
                ("embedding_provider", VStr (embedding_provider (vector s)));
                ("embedding_model", VStr (embedding_model (vector s)))])).
Proof.
  split.
  - unfold vector_probe_body, perform.
    destruct (get_we0_index_settings w) as [[s |] | e |],
             (init_app w) as [[] | e' |],
             (get_dimension w) as [d | e'' |]; cbn; split;
      try discriminate;
      try (intros (s' & d' & H1 & H2 & H3); discriminate);
      intros _; eauto.
  - intros s d Hs Hi Hd.
    unfold check_vector_database_health, vector_probe_body, perform.
    rewrite Hs, Hi, Hd. reflexivity.
Qed.

Lemma vector_probe_healthy_iff_witness :
  is_return (result (vector_probe_body world_ok)) = true.
Proof.
  apply (proj1 (vector_probe_healthy_iff world_ok)).
  exists {| vector := sample_vector_settings |}, 1536.
  repeat split; reflexivity.
Defined.

(** ** The embedding-service probe *)

(** X3. The embedding probe is healthy exactly when the model could be
    obtained and its [create_embedding] returned, whatever list it
    returned; the model is asked once, for the single text
    ["health check test"], and only if it was obtained. *)
Theorem embedding_probe_healthy_iff (w : World) :
  (is_return (result (embedding_probe_body w)) = true <->
   exists m vs, get_embedding_model w = Return m /\
                create_embedding m ["health check test"] = Return vs) /\
  (forall texts,
     In (EvCall (CreateEmbedding texts))
        (trace (check_embedding_service_health w)) <->
     texts = ["health check test"] /\
     is_return (get_embedding_model w) = true).
Proof.
  split.
  - unfold embedding_probe_body, perform.
    destruct (get_embedding_model w) as [m | e |]; cbn.
    + destruct (create_embedding m ["health check test"])
        as [[| v vs] | e |] eqn:Hc; cbn; split;
        try discriminate;
        try (intros _; exists m; eexists; split; [reflexivity | exact Hc]);
        intros (m' & vs' & [= <-] & Hc'); congruence.
    + split; [discriminate | intros (m' & vs' & H & _); discriminate].
    + split; [discriminate | intros (m' & vs' & H & _); discriminate].
  - intros texts.
    unfold check_embedding_service_health, embedding_probe_body, perform.
    destruct (get_embedding_model w) as [m | e |]; cbn.
    + destruct (create_embedding m ["health check test"])
        as [[| v vs] | e |]; cbn;
        intuition (try discriminate; try congruence).
    + intuition (try discriminate; try congruence).
    + intuition (try discriminate; try congruence).
Qed.

Lemma embedding_probe_healthy_iff_witness :
  is_return (result (embedding_probe_body world_empty_embedding)) = true.
Proof.
  apply (proj1 (embedding_probe_healthy_iff world_empty_embedding)).
  exists (sample_model (Return [])), []. split; reflexivity.
Defined.

(** X4. When [create_embedding] returns a non-empty list, the dimension the
    probe reports is the length of the first vector alone; the vectors
    after it are not looked at. *)
Theorem embedding_dimension_is_first_vector_length
    (w : World) (m : EmbeddingModel) (v : list Q) (vs : list (list Q)) :
  get_embedding_model w = Return m ->
  create_embedding m ["health check test"] = Return (v :: vs) ->
  result (check_embedding_service_health w) =
    Return [("status", VStr "healthy");
            ("dimension", VInt (Z.of_nat (length v)));
            ("provider", VStr (model_type m));
            ("model", VStr (model_name m))].
Proof.
  intros Hm Hc.
  unfold check_embedding_service_health, embedding_probe_body, perform.
  rewrite Hm. cbn. rewrite Hc. reflexivity.
Qed.

Lemma embedding_dimension_is_first_vector_length_witness :
  result (check_embedding_service_health world_ok) =
    Return [("status", VStr "healthy");
            ("dimension", VInt 3);
            ("provider", VStr "openai");
            ("model", VStr "text-embedding-3-small")].
Proof.
  apply (embedding_dimension_is_first_vector_length world_ok
           (sample_model (Return [[1; 0; 0]%Q])) [1; 0; 0]%Q []);
    reflexivity.
Defined.

(** ** The aggregator *)

Lemma unhealthy_names_dicts (items : dict) :
  forallb (fun kv => is_dict (snd kv)) items = true ->
  unhealthy_names items =
    ([], Return (map fst (List.filter (fun kv => entry_not_healthy (snd kv))
                            items))).
Proof.
  induction items as [| [service health] rest IH]; cbn; [reflexivity |].
  rewrite andb_true_iff. intros [Hd Hrest].
  destruct health as [| | | | | h]; try discriminate. cbn.
  rewrite (IH Hrest). cbn. unfold not_healthy.
  destruct (py_ne_str (dict_get h "status") "healthy"); reflexivity.
Qed.

Lemma unhealthy_names_silent (items : dict) :
  trace (unhealthy_names items) = [].
Proof.
  induction items as [| [service health] rest IH]; cbn; [reflexivity |].
  destruct health; cbn; try reflexivity.
  destruct (unhealthy_names rest) as [t [tl | e |]]; cbn in *; subst;
    reflexivity.
Qed.

(** X5. The list comprehension over [services.items()], for any number of
    services: when every entry is a dict, it yields, in the order of the
    mapping, exactly the names whose entry's [status] is not the string
    ["healthy"] (an entry without a [status] key is such a one), and it
    performs no call; an entry that is not a dict makes it raise. *)
Theorem unhealthy_names_selects_in_order (items : dict) :
  trace (unhealthy_names items) = [] /\
  (forallb (fun kv => is_dict (snd kv)) items = true ->
   result (unhealthy_names items) =
     Return (map fst (List.filter (fun kv => entry_not_healthy (snd kv))
                        items))) /\
  (forallb (fun kv => is_dict (snd kv)) items = false ->
   exists e, result (unhealthy_names items) = Raise e) /\
  (forall name h,
     forallb (fun kv => is_dict (snd kv)) items = true ->
     In (name, VDict h) items -> dict_get h "status" = None ->
     exists names, result (unhealthy_names items) = Return names /\
                   In name names).
Proof.
  split; [apply unhealthy_names_silent |]. split; [| split].
  - intros H. rewrite (unhealthy_names_dicts items H). reflexivity.
  - induction items as [| [service health] rest IH]; cbn; [discriminate |].
    rewrite andb_false_iff. intros H.
    destruct health as [| | | | | h]; cbn; eauto.
    destruct H as [H | H]; [discriminate |].
    destruct (IH H) as [e He].
    destruct (unhealthy_names rest) as [t o]. cbn in He. subst o.
    cbn. eauto.
  - intros name h Hall Hin Hs.
    rewrite (unhealthy_names_dicts items Hall). eexists. split; [reflexivity |].
    apply (in_map fst _ (name, VDict h)).
    apply filter_In. split; [exact Hin |].
    cbn. unfold not_healthy. rewrite Hs. reflexivity.
Qed.

Lemma unhealthy_names_selects_in_order_witness :
  result (unhealthy_names
            [("a", VDict [("status", VStr "healthy")]);
             ("b", VDict [("state", VStr "healthy")]);
             ("c", VDict [("status", VStr "unhealthy")])]) =
  Return ["b"; "c"].
Proof.
  apply (proj1 (proj2 (unhealthy_names_selects_in_order
           [("a", VDict [("status", VStr "healthy")]);
            ("b", VDict [("state", VStr "healthy")]);
            ("c", VDict [("status", VStr "unhealthy")])]))).
  reflexivity.
Defined.

Lemma vector_probe_error_logs (w : World) :
  List.filter is_error_log (trace (check_vector_database_health w)) =
  match result (vector_probe_body w) with
  | Raise e => [EvLog ERROR ("Vector database health check failed: " ++ str e)]
  | _ => []
  end.
Proof.
  unfold check_vector_database_health, vector_probe_body, perform.
  destruct (get_we0_index_settings w) as [[s |] | e |],
           (init_app w) as [[] | e' |],
           (get_dimension w) as [d | e'' |]; reflexivity.
Qed.

Lemma embedding_probe_error_logs (w : World) :
  List.filter is_error_log (trace (check_embedding_service_health w)) =
  match result (embedding_probe_body w) with
  | Raise e => [EvLog ERROR ("Embedding service health check failed: " ++ str e)]
  | _ => []
  end.
Proof.
  unfold check_embedding_service_health, embedding_probe_body, perform.
  destruct (get_embedding_model w) as [m | e |]; cbn; try reflexivity.
  destruct (create_embedding m ["health check test"]) as [[| v vs] | e |];
    reflexivity.
Qed.

(** X6. One ERROR record is logged per failed probe and none otherwise: in a
    run that returns a report, the number of ERROR records equals the
    number of names under [unhealthy_services] (none when the key is
    absent). *)
Theorem error_logs_match_unhealthy_services (w : World) (r : dict) :
  result (comprehensive_health_check w) = Return r ->
  length (List.filter is_error_log (trace (comprehensive_health_check w))) =
  match dict_get r "unhealthy_services" with
  | Some (VList names) => length names
  | _ => 0%nat
  end.
Proof.
  intros Hr.
  destruct (comprehensive_health_check_inv w r Hr)
    as (vh & eh & Hv & He & Pv & Pe & ->).
  rewrite comprehensive_health_check_trace, Hv. cbn [is_return].
  cbn [List.filter is_error_log]. rewrite List.filter_app, length_app.
  rewrite vector_probe_error_logs, embedding_probe_error_logs.
  rewrite compose_report_unhealthy_services.
  rewrite (probe_record_not_healthy _ _ Pv), (probe_record_not_healthy _ _ Pe).
  destruct Pv as [dv Ev _ | ev Ev], Pe as [de Ee _ | ee Ee];
    rewrite Ev, Ee; reflexivity.
Qed.

Lemma error_logs_match_unhealthy_services_witness :
  length (List.filter is_error_log
            (trace (comprehensive_health_check world_both_fail))) = 2%nat.
Proof.
  apply (error_logs_match_unhealthy_services world_both_fail report_both_fail).
  reflexivity.
Defined.

(** X7. A returned report carries the clock reading taken before either
    probe started, and has the keys [overall_status], [timestamp],
    [services], in this order, followed by [unhealthy_services] exactly
    when it is unhealthy. *)
Theorem report_keys_and_timestamp (w : World) (r : dict) :
  result (comprehensive_health_check w) = Return r ->
  dict_get r "timestamp" = Some (VFloat (loop_time w)) /\
  (exists rest, trace (comprehensive_health_check w) = EvCall LoopTime :: rest /\
                ~ In (EvCall LoopTime) rest) /\
  map fst r =
    (["overall_status"; "timestamp"; "services"] ++
     if py_ne_str (dict_get r "overall_status") "healthy"
     then ["unhealthy_services"] else [])%list.
Proof.
  intros Hr.
  destruct (comprehensive_health_check_inv w r Hr)
    as (vh & eh & Hv & He & Pv & Pe & ->).
  split; [| split].
  - unfold compose_report.
    destruct (not_healthy vh), (not_healthy eh); reflexivity.
  - rewrite comprehensive_health_check_trace. eexists. split; [reflexivity |].
    intros Hin. apply in_app_or in Hin. destruct Hin as [Hin | Hin].
    + revert Hin.
      unfold check_vector_database_health, vector_probe_body, perform.
      destruct (get_we0_index_settings w) as [[s |] | e |],
               (init_app w) as [[] | e' |],
               (get_dimension w) as [d | e'' |]; cbn;
        intuition discriminate.
    + rewrite Hv in Hin. cbn in Hin. revert Hin.
      unfold check_embedding_service_health, embedding_probe_body, perform.
      destruct (get_embedding_model w) as [m | e |]; cbn;
        try (intuition discriminate).
      destruct (create_embedding m ["health check test"]) as [[| v vs] | e |];
        cbn; intuition discriminate.
  - rewrite compose_report_overall_status. unfold compose_report.
    destruct (not_healthy vh), (not_healthy eh); reflexivity.
Qed.

Lemma report_keys_and_timestamp_witness :
  dict_get report_both_fail "timestamp" = Some (VFloat (12 # 1)).
Proof.
  apply (report_keys_and_timestamp world_both_fail report_both_fail).
  reflexivity.
Defined.

(** ** validate_environment, beyond the platform check *)

Lemma check_api_keys_trace (v : VectorSettings) (env : gmap string string) :
  trace (check_api_keys v env) =
  ((if String.eqb (embedding_provider v) "openai" &&
       environ_unset env "OPENAI_API_KEY"
    then [EvLog WARNING "OPENAI_API_KEY not set"] else []) ++
   (if String.eqb (embedding_provider v) "jina" &&
       environ_unset env "JINA_API_KEY"
    then [EvLog WARNING "JINA_API_KEY not set"] else []) ++
   [EvLog INFO "Environment validation completed"])%list.
Proof.
  unfold check_api_keys.
  destruct (String.eqb (embedding_provider v) "openai"),
           (String.eqb (embedding_provider v) "jina"),
           (environ_unset env "OPENAI_API_KEY"),
           (environ_unset env "JINA_API_KEY"); reflexivity.
Qed.

Lemma environ_unset_iff (env : gmap string string) (k : string) :
  environ_unset env k = true <-> env !! k = None \/ env !! k = Some "".
Proof.
  unfold environ_unset. destruct (env !! k) as [s |].
  - rewrite String.eqb_eq. split.
    + intros ->. right. reflexivity.
    + intros [H | [= ->]]; [discriminate | reflexivity].
  - split; auto.
Qed.

(** Validation that passed ran on loaded settings and went through the
    API-key check. *)
Lemma validate_environment_true_inv (w : World) :
  result (validate_environment w) = Return true ->
  exists s, get_we0_index_settings w = Return (Some s) /\
            validate_environment w =
              (EvCall GetSettings :: trace (check_api_keys (vector s) (environ w)),
               Return true).
Proof.
  destruct (get_we0_index_settings w) as [[s |] | e |] eqn:Hs.
  - intros H. exists s. split; [reflexivity |]. revert H.
    rewrite (validate_environment_loaded w s Hs). cbv zeta.
    destruct (String.eqb (platform (vector s)) "pgvector"),
             (String.eqb (platform (vector s)) "qdrant"),
             (String.eqb (platform (vector s)) "chroma"),
             (truthy (pgvector (vector s))), (truthy (qdrant (vector s))),
             (truthy (chroma (vector s)));
      cbn; intros H; try discriminate; reflexivity.
  - unfold validate_environment. rewrite Hs. discriminate.
  - unfold validate_environment. rewrite Hs. discriminate.
  - unfold validate_environment. rewrite Hs. discriminate.
Qed.

(** Validation that failed logged one ERROR record right after the
    settings load, and nothing else. *)
Lemma validate_environment_false_inv (w : World) :
  result (validate_environment w) = Return false ->
  exists msg,
    validate_environment w =
      ([EvCall GetSettings; EvLog ERROR msg], Return false) /\
    (In msg ["Failed to load settings";
             "PgVector configuration is missing";
             "Qdrant configuration is missing";
             "Chroma configuration is missing"] \/
     exists e, msg = "Validation failed: " ++ str e).
Proof.
  destruct (get_we0_index_settings w) as [[s |] | e |] eqn:Hs.
  - rewrite (validate_environment_loaded w s Hs). cbv zeta.
    destruct (String.eqb (platform (vector s)) "pgvector"),
             (String.eqb (platform (vector s)) "qdrant"),
             (String.eqb (platform (vector s)) "chroma"),
             (truthy (pgvector (vector s))), (truthy (qdrant (vector s))),
             (truthy (chroma (vector s)));
      cbn; intros H; try discriminate;
      eexists; (split; [reflexivity | left; cbn; tauto]).
  - unfold validate_environment. rewrite Hs. intros _.
    eexists. split; [reflexivity | left; cbn; tauto].
  - unfold validate_environment. rewrite Hs. intros _.
    eexists. split; [reflexivity | right; eauto].
  - unfold validate_environment. rewrite Hs. discriminate.
Qed.

Lemma validate_environment_no_raise (w : World) (e : exn) :
  result (validate_environment w) <> Raise e.
Proof.
  destruct (result (validate_environment w)) as [[|] | e' |] eqn:Hr;
    try discriminate.
  exfalso. revert Hr.
  destruct (get_we0_index_settings w) as [[s |] | e0 |] eqn:Hs.
  - rewrite (validate_environment_loaded w s Hs). cbv zeta.
    destruct (String.eqb (platform (vector s)) "pgvector"),
             (String.eqb (platform (vector s)) "qdrant"),
             (String.eqb (platform (vector s)) "chroma"),
             (truthy (pgvector (vector s))), (truthy (qdrant (vector s))),
             (truthy (chroma (vector s))); discriminate.
  - unfold validate_environment. rewrite Hs. discriminate.
  - unfold validate_environment. rewrite Hs. discriminate.
  - unfold validate_environment. rewrite Hs. discriminate.
Qed.

(** X9. [validate_environment] never raises.  It fails to return only while
    the settings loader does; an exception of the loader becomes the
    verdict [False] with ["Validation failed: <message>"] logged, and a
    falsy settings object the verdict [False] with
    ["Failed to load settings"] logged. *)
Theorem validate_environment_never_raises (w : World) :
  (forall e, result (validate_environment w) <> Raise e) /\
  (result (validate_environment w) = Pending <->
   get_we0_index_settings w = Pending) /\
  (forall e, get_we0_index_settings w = Raise e ->
     validate_environment w =
       ([EvCall GetSettings; EvLog ERROR ("Validation failed: " ++ str e)],
        Return false)) /\
  (get_we0_index_settings w = Return None ->
     validate_environment w =
       ([EvCall GetSettings; EvLog ERROR "Failed to load settings"],
        Return false)).
Proof.
  destruct (get_we0_index_settings w) as [[s |] | e |] eqn:Hs.
  - rewrite (validate_environment_loaded w s Hs). cbv zeta.
    destruct (String.eqb (platform (vector s)) "pgvector"),
             (String.eqb (platform (vector s)) "qdrant"),
             (String.eqb (platform (vector s)) "chroma"),
             (truthy (pgvector (vector s))), (truthy (qdrant (vector s))),
             (truthy (chroma (vector s)));
      cbn; repeat split; intros; discriminate.
  - unfold validate_environment. rewrite Hs. cbn.
    repeat split; intros; try discriminate; reflexivity.
  - unfold validate_environment. rewrite Hs. cbn.
    repeat split; intros; try discriminate. congruence.
  - unfold validate_environment. rewrite Hs. cbn.
    repeat split; intros; try discriminate; reflexivity.
Qed.

Lemma validate_environment_never_raises_witness :
  validate_environment (with_settings world_ok (Raise (Exception "no such file"))) =
    ([EvCall GetSettings; EvLog ERROR "Validation failed: no such file"],
     Return false).
Proof.
  apply (proj1 (proj2 (proj2 (validate_environment_never_raises
           (with_settings world_ok (Raise (Exception "no such file"))))))
           (Exception "no such file")).
  reflexivity.
Defined.

(** X10. The verdict and the log agree.  A run that returns [False] has
    logged exactly one ERROR record, directly after loading the settings,
    and has not reached the API-key check (no warning, no completion
    message); a run that returns [True] has logged no ERROR record and
    ends with ["Environment validation completed"]. *)
Theorem validate_environment_verdict_matches_log (w : World) (b : bool) :
  result (validate_environment w) = Return b ->
  (b = false ->
   exists msg, trace (validate_environment w) =
                 [EvCall GetSettings; EvLog ERROR msg]) /\
  (b = true ->
   List.filter is_error_log (trace (validate_environment w)) = [] /\
   List.last (trace (validate_environment w)) (EvCall GetSettings) =
     EvLog INFO "Environment validation completed").
Proof.
  intros Hb. split; intros ->.
  - destruct (validate_environment_false_inv w Hb) as (msg & -> & _). eauto.
  - destruct (validate_environment_true_inv w Hb) as (s & _ & ->).
    cbn [trace fst]. rewrite check_api_keys_trace.
    destruct (String.eqb (embedding_provider (vector s)) "openai" &&
              environ_unset (environ w) "OPENAI_API_KEY"),
             (String.eqb (embedding_provider (vector s)) "jina" &&
              environ_unset (environ w) "JINA_API_KEY");
      split; reflexivity.
Qed.

Lemma validate_environment_verdict_matches_log_witness :
  exists msg,
    trace (validate_environment
             (with_settings world_ok (Return (Some settings_pgvector_empty)))) =
    [EvCall GetSettings; EvLog ERROR msg].
Proof.
  apply (proj1 (validate_environment_verdict_matches_log
                  (with_settings world_ok (Return (Some settings_pgvector_empty)))
                  false eq_refl) eq_refl).
Defined.

(** X11. In a run that passes, the warning about a provider's API key is
    logged exactly when that provider is the selected one and its
    variable is missing from the environment or set to the empty
    string. *)
Theorem api_key_warning_iff (w : World) :
  result (validate_environment w) = Return true ->
  exists s,
    get_we0_index_settings w = Return (Some s) /\
    (In (EvLog WARNING "OPENAI_API_KEY not set")
        (trace (validate_environment w)) <->
     embedding_provider (vector s) = "openai" /\
     (environ w !! "OPENAI_API_KEY" = None \/
      environ w !! "OPENAI_API_KEY" = Some "")) /\
    (In (EvLog WARNING "JINA_API_KEY not set")
        (trace (validate_environment w)) <->
     embedding_provider (vector s) = "jina" /\
     (environ w !! "JINA_API_KEY" = None \/
      environ w !! "JINA_API_KEY" = Some "")).
Proof.
  intros Ht. destruct (validate_environment_true_inv w Ht) as (s & Hs & ->).
  exists s. split; [exact Hs |].
  cbn [trace fst]. rewrite check_api_keys_trace.
  rewrite <- !environ_unset_iff, <- !String.eqb_eq.
  destruct (String.eqb (embedding_provider (vector s)) "openai"),
           (String.eqb (embedding_provider (vector s)) "jina"),
           (environ_unset (environ w) "OPENAI_API_KEY"),
           (environ_unset (environ w) "JINA_API_KEY"); cbn;
    intuition (try discriminate; try congruence).
Qed.

Lemma api_key_warning_iff_witness :
  exists s,
    get_we0_index_settings world_ok = Return (Some s) /\
    (In (EvLog WARNING "OPENAI_API_KEY not set")
        (trace (validate_environment world_ok)) <->
     embedding_provider (vector s) = "openai" /\
     (environ world_ok !! "OPENAI_API_KEY" = None \/
      environ world_ok !! "OPENAI_API_KEY" = Some "")) /\
    (In (EvLog WARNING "JINA_API_KEY not set")
        (trace (validate_environment world_ok)) <->
     embedding_provider (vector s) = "jina" /\
     (environ world_ok !! "JINA_API_KEY" = None \/
      environ world_ok !! "JINA_API_KEY" = Some "")).
Proof.
  apply (api_key_warning_iff world_ok). reflexivity.
Defined.

Lemma check_api_keys_depends (v v' : VectorSettings) (env : gmap string string) :
  embedding_provider v = embedding_provider v' ->
  check_api_keys v env = check_api_keys v' env.
Proof. intros H. unfold check_api_keys. rewrite H. reflexivity. Qed.

(** X12. Only the configuration record of the selected platform is looked at,
    and only for its truth value: two settings with the same platform and
    provider, whose record for that platform is equally empty or
    non-empty, are validated by the very same run, whatever the records
    of the other platforms and the embedding model name are. *)
Theorem validate_environment_reads_selected_platform_only
    (w w' : World) (s s' : Settings) :
  get_we0_index_settings w = Return (Some s) ->
  get_we0_index_settings w' = Return (Some s') ->
  environ w = environ w' ->
  platform (vector s) = platform (vector s') ->
  embedding_provider (vector s) = embedding_provider (vector s') ->
  (platform (vector s) = "pgvector" ->
   truthy (pgvector (vector s)) = truthy (pgvector (vector s'))) ->
  (platform (vector s) = "qdrant" ->
   truthy (qdrant (vector s)) = truthy (qdrant (vector s'))) ->
  (platform (vector s) = "chroma" ->
   truthy (chroma (vector s)) = truthy (chroma (vector s'))) ->
  validate_environment w = validate_environment w'.
Proof.
  intros Hs Hs' He Hp Hprov Hpg Hq Hc.
  rewrite (validate_environment_loaded w s Hs),
          (validate_environment_loaded w' s' Hs'). cbv zeta.
  rewrite <- Hp, <- He, <- (check_api_keys_depends _ _ _ Hprov).
  destruct (String.eqb_spec (platform (vector s)) "pgvector") as [E1 | _];
    [rewrite <- (Hpg E1); reflexivity |].
  destruct (String.eqb_spec (platform (vector s)) "qdrant") as [E2 | _];
    [rewrite <- (Hq E2); reflexivity |].
  destruct (String.eqb_spec (platform (vector s)) "chroma") as [E3 | _];
    [rewrite <- (Hc E3); reflexivity |].
  reflexivity.
Qed.

Lemma validate_environment_reads_selected_platform_only_witness :
  validate_environment
    (with_settings world_ok (Return (Some settings_pgvector_empty))) =
  validate_environment
    (with_settings world_ok (Return (Some settings_pgvector_none))).
Proof.
  apply (validate_environment_reads_selected_platform_only
           (with_settings world_ok (Return (Some settings_pgvector_empty)))
           (with_settings world_ok (Return (Some settings_pgvector_none)))
           settings_pgvector_empty settings_pgvector_none);
    try reflexivity; discriminate.
Defined.

(** ** scripts/validate_project.py *)

Lemma main_imported (w : World) :
  main (Return tt) w =
  match validate_environment w with
  | (t, Return true) =>
      ((EvLog INFO "Starting project validation..." ::
        EvLog INFO "1. Validating environment configuration..." :: t ++
        [EvLog INFO "Project validation completed successfully!"])%list,
       Return true)
  | (t, Return false) =>
      ((EvLog INFO "Starting project validation..." ::
        EvLog INFO "1. Validating environment configuration..." :: t ++
        [EvLog ERROR "Environment validation failed"])%list,
       Return false)
  | (t, Raise e) =>
      ((EvLog INFO "Starting project validation..." ::
        EvLog INFO "1. Validating environment configuration..." :: t ++
        [EvLog ERROR ("Environment validation error: " ++ str e)])%list,
       Return false)
  | (t, Pending) =>
      (EvLog INFO "Starting project validation..." ::
       EvLog INFO "1. Validating environment configuration..." :: t,
       Pending)
  end.
Proof.
  unfold main.
  destruct (validate_environment w) as [t [[|] | e |]]; cbn;
    rewrite ?app_nil_r; reflexivity.
Qed.

(** X13. [main] never raises.  When the import of [validate_environment]
    succeeds, [main] returns the verdict of [validate_environment]; when
    the import raises, [main] returns [False] without loading the
    settings. *)
Theorem main_returns_the_verdict (import_validation : outcome unit) (w : World) :
  (forall e, result (main import_validation w) <> Raise e) /\
  (import_validation = Return tt ->
   forall b, result (validate_environment w) = Return b ->
             result (main import_validation w) = Return b) /\
  (forall e, import_validation = Raise e ->
     main import_validation w =
       ([EvLog INFO "Starting project validation...";
         EvLog ERROR ("Environment validation error: " ++ str e)],
        Return false)).
Proof.
  split; [| split].
  - intros e. destruct import_validation as [[] | e' |].
    + rewrite main_imported.
      destruct (validate_environment w) as [t [[|] | e' |]]; discriminate.
    + discriminate.
    + discriminate.
  - intros -> b Hb. rewrite main_imported.
    destruct (validate_environment w) as [t o]. cbn in Hb. subst o.
    destruct b; reflexivity.
  - intros e ->. reflexivity.
Qed.

Lemma main_returns_the_verdict_witness :
  result (main (Return tt)
            (with_settings world_ok (Return (Some settings_pgvector_empty)))) =
  Return false.
Proof.
  apply (proj1 (proj2 (main_returns_the_verdict (Return tt)
           (with_settings world_ok (Return (Some settings_pgvector_empty)))))
           eq_refl false).
  reflexivity.
Defined.

(** X14. With the import in place, the [except] clause of [main] is never
    entered, because [validate_environment] does not raise: no
    ["Environment validation error"] record is logged.  A failed
    validation leaves two ERROR records, the one of
    [validate_environment] and then ["Environment validation failed"];
    a passed one leaves none. *)
Theorem main_error_records (w : World) (b : bool) :
  result (main (Return tt) w) = Return b ->
  (forall msg, ~ In (EvLog ERROR ("Environment validation error: " ++ msg))
                    (trace (main (Return tt) w))) /\
  (b = false ->
   exists msg,
     List.filter is_error_log (trace (main (Return tt) w)) =
       [EvLog ERROR msg; EvLog ERROR "Environment validation failed"]) /\
  (b = true ->
   List.filter is_error_log (trace (main (Return tt) w)) = []).
Proof.
  rewrite main_imported.
  destruct (validate_environment w) as [t o] eqn:Hv.
  assert (Ho : result (validate_environment w) = o) by (rewrite Hv; reflexivity).
  destruct o as [[|] | e |].
  - intros [= <-].
    destruct (validate_environment_true_inv w Ho) as (s & _ & Hrun).
    rewrite Hv in Hrun. injection Hrun as ->.
    rewrite check_api_keys_trace.
    destruct (String.eqb (embedding_provider (vector s)) "openai" &&
              environ_unset (environ w) "OPENAI_API_KEY"),
             (String.eqb (embedding_provider (vector s)) "jina" &&
              environ_unset (environ w) "JINA_API_KEY"); cbn;
      (split; [intros msg Hin; intuition discriminate |
               split; [discriminate | reflexivity]]).
  - intros [= <-].
    destruct (validate_environment_false_inv w Ho) as (msg & Hrun & Hmsg).
    rewrite Hv in Hrun. injection Hrun as ->.
    split; [| split]; [| | discriminate].
    + intros msg' Hin. cbn in Hin.
      destruct Hin as [Hin | [Hin | [Hin | [Hin | [Hin | []]]]]];
        try discriminate.
      injection Hin as ->.
      destruct Hmsg as [Hmsg | [e Hmsg]]; [| discriminate].
      cbn in Hmsg. intuition discriminate.
    + intros _. exists msg. reflexivity.
  - destruct (validate_environment_no_raise w e Ho).
  - discriminate.
Qed.

Lemma main_error_records_witness :
  exists msg,
    List.filter is_error_log
      (trace (main (Return tt)
                (with_settings world_ok (Return (Some settings_pgvector_empty))))) =
    [EvLog ERROR msg; EvLog ERROR "Environment validation failed"].
Proof.
  apply (proj1 (proj2 (main_error_records
           (with_settings world_ok (Return (Some settings_pgvector_empty)))
           false eq_refl)) eq_refl).
Defined.

(** X15. The exit status of the script for a supported platform: with the
    import in place and settings loaded, the script exits with 0 exactly
    when the configuration record of the selected platform is non-empty,
    and with 1 otherwise. *)
Theorem script_exit_status (w : World) (s : Settings) (b : bool) :
  get_we0_index_settings w = Return (Some s) ->
  result (main (Return tt) w) = Return b ->
  (platform (vector s) = "pgvector" ->
   exit_status b = if truthy (pgvector (vector s)) then 0 else 1) /\
  (platform (vector s) = "qdrant" ->
   exit_status b = if truthy (qdrant (vector s)) then 0 else 1) /\
  (platform (vector s) = "chroma" ->
   exit_status b = if truthy (chroma (vector s)) then 0 else 1) /\
  (platform (vector s) <> "pgvector" ->
   platform (vector s) <> "qdrant" ->
   platform (vector s) <> "chroma" ->
   exit_status b = 0).
Proof.
  intros Hs. rewrite main_imported.
  rewrite (validate_environment_loaded w s Hs). cbv zeta.
  destruct (String.eqb_spec (platform (vector s)) "pgvector") as [E1 | N1].
  { destruct (truthy (pgvector (vector s))); intros [= <-];
      repeat split; intros; try reflexivity; congruence. }
  destruct (String.eqb_spec (platform (vector s)) "qdrant") as [E2 | N2].
  { destruct (truthy (qdrant (vector s))); intros [= <-];
      repeat split; intros; try reflexivity; congruence. }
  destruct (String.eqb_spec (platform (vector s)) "chroma") as [E3 | N3].
  { destruct (truthy (chroma (vector s))); intros [= <-];
      repeat split; intros; try reflexivity; congruence. }
  intros [= <-]. repeat split; intros; try reflexivity; congruence.
Qed.

Lemma script_exit_status_witness :
  exit_status false = 1.
Proof.
  apply (proj1 (script_exit_status
           (with_settings world_ok (Return (Some settings_pgvector_empty)))
           settings_pgvector_empty false eq_refl eq_refl) eq_refl).
Defined.

(** ** GET /health, beyond the status code *)

(** X16. The handler is a terminal boundary: over any aggregator it never
    raises, and what it answers carries the status 200 or 503.  A report
    that lacks the key [overall_status] is answered with the error body
    naming the key, and status 503. *)
Theorem health_check_over_never_raises (aggregator : M dict) :
  (forall e, result (health_check_over aggregator) <> Raise e) /\
  (forall resp, result (health_check_over aggregator) = Return resp ->
     status_code resp = 200 \/ status_code resp = 503) /\
  (forall r, result aggregator = Return r ->
     dict_get r "overall_status" = None ->
     result (health_check_over aggregator) =
       Return (error_response (Exception "'overall_status'"))) /\
  (result (health_check_over aggregator) = Pending <->
   result aggregator = Pending).
Proof.
  unfold health_check_over, dict_getitem.
  destruct aggregator as [t [r | e |]]; cbn.
  - destruct (dict_get r "overall_status") as [v |] eqn:Hv; cbn.
    + destruct (py_eq_str v "healthy"); cbn;
        repeat split; intros; try discriminate; try congruence;
        match goal with H : Return _ = Return _ |- _ =>
          injection H as <-; cbn; auto end.
    + repeat split; intros; try discriminate; try congruence.
      match goal with H : Return _ = Return _ |- _ =>
        injection H as <-; cbn; auto end.
  - repeat split; intros; try discriminate.
    match goal with H : Return _ = Return _ |- _ =>
      injection H as <-; cbn; auto end.
  - repeat split; intros; try discriminate; reflexivity.
Qed.

Lemma health_check_over_never_raises_witness :
  result (health_check_over (ret [("services", VDict [])])) =
    Return (error_response (Exception "'overall_status'")).
Proof.
  apply (proj1 (proj2 (proj2 (health_check_over_never_raises
           (ret [("services", VDict [])]))))
           [("services", VDict [])]); reflexivity.
Defined.

Lemma comprehensive_health_check_no_raise (w : World) (e : exn) :
  result (comprehensive_health_check w) <> Raise e.
Proof.
  rewrite comprehensive_health_check_result.
  pose proof (probes_never_raise w) as Hn.
  destruct (result (check_vector_database_health w)) as [vh | e' |];
    [| destruct (Hn e') as [Hv _]; congruence | discriminate].
  destruct (result (check_embedding_service_health w)) as [eh | e' |];
    [discriminate | destruct (Hn e') as [_ He]; congruence | discriminate].
Qed.

(** X17. End to end: whatever GET /health answers is the report of the
    aggregator, with status 200 exactly when the bodies of both probes
    ran to their [return]; the handler adds no event of its own, so its
    [except] clause (["Health check failed"]) is never entered. *)
Theorem health_endpoint_end_to_end (w : World) (resp : JSONResponse) :
  result (health_check w) = Return resp ->
  result (comprehensive_health_check w) = Return (content resp) /\
  (status_code resp = 200 <->
   is_return (result (vector_probe_body w)) = true /\
   is_return (result (embedding_probe_body w)) = true) /\
  trace (health_check w) = trace (comprehensive_health_check w).
Proof.
  intros Hresp.
  destruct (result (comprehensive_health_check w)) as [r | e |] eqn:Hr.
  - destruct (comprehensive_health_check_inv w r Hr)
      as (vh & eh & _ & _ & Pv & Pe & Er).
    assert (Hos : dict_get r "overall_status" =
                  Some (VStr (if negb (is_return (result (vector_probe_body w))) ||
                                 negb (is_return (result (embedding_probe_body w)))
                              then "unhealthy" else "healthy"))).
    { rewrite Er, compose_report_overall_status.
      rewrite (probe_record_not_healthy _ _ Pv),
              (probe_record_not_healthy _ _ Pe). reflexivity. }
    revert Hresp. unfold health_check, health_check_over.
    rewrite result_try_except, trace_try_except, !result_bind, !trace_bind.
    rewrite Hr, !result_bind. unfold dict_getitem. rewrite Hos.
    destruct (is_return (result (vector_probe_body w))),
             (is_return (result (embedding_probe_body w))); cbn;
      intros [= <-]; cbn; rewrite !app_nil_r;
      repeat split; try reflexivity; try discriminate;
      intros []; discriminate.
  - destruct (comprehensive_health_check_no_raise w e Hr).
  - exfalso. revert Hresp. unfold health_check, health_check_over.
    rewrite result_try_except, result_bind, Hr. discriminate.
Qed.

Lemma health_endpoint_end_to_end_witness :
  result (comprehensive_health_check world_both_fail) = Return report_both_fail.
Proof.
  apply (health_endpoint_end_to_end world_both_fail
           {| content := report_both_fail; status_code := 503 |}).
  reflexivity.
Defined.

(** ** lifespan, beyond close_extensions *)

Lemma shutdown_trace (w : World) :
  trace (close_extensions ;;; perform LogClose (log_close w)) =
  [EvEnter "close_extensions"; EvCall LogClose].
Proof. destruct (log_close w) as [[] | e |]; reflexivity. Qed.

Lemma shutdown_result (w : World) :
  result (close_extensions ;;; perform LogClose (log_close w)) = log_close w.
Proof. destruct (log_close w) as [[] | e |]; reflexivity. Qed.

(** X18. Every execution of the lifespan that comes to an end starts with
    [Log.start()] and ends with the two steps of the [finally] block in
    program order: [close_extensions] is entered, then [Log.close()] is
    called, and nothing follows. *)
Theorem lifespan_shutdown_order (w : World) (serving : M unit) :
  is_pending (result (lifespan w serving)) = false ->
  exists middle,
    trace (lifespan w serving) =
      (EvCall LogStart :: middle ++
       [EvEnter "close_extensions"; EvCall LogClose])%list.
Proof.
  unfold lifespan. rewrite result_try_finally, trace_try_finally.
  rewrite shutdown_trace, shutdown_result.
  set (startup := (perform LogStart (log_start w) ;;;
                   initialize_extensions w ;;; serving)).
  assert (Hhd : exists middle, trace startup = EvCall LogStart :: middle).
  { subst startup. rewrite trace_bind. cbn. eauto. }
  destruct Hhd as [middle ->].
  destruct (result startup); cbn; intros H; try discriminate; eauto.
Qed.

Lemma lifespan_shutdown_order_witness :
  exists middle,
    trace (lifespan world_ok (raise (Exception "SIGTERM"))) =
      (EvCall LogStart :: middle ++
       [EvEnter "close_extensions"; EvCall LogClose])%list.
Proof.
  apply (lifespan_shutdown_order world_ok (raise (Exception "SIGTERM"))).
  reflexivity.
Defined.

(** X19. When [Log.start()] raises, neither [initialize_extensions] nor the
    serving phase is reached, but the [finally] block still runs both of
    its steps, and the exception of [Log.start()] is what the lifespan
    raises once [Log.close()] has returned. *)
Theorem lifespan_log_start_failure (w : World) (serving : M unit) (e : exn) :
  log_start w = Raise e ->
  trace (lifespan w serving) =
    [EvCall LogStart; EvEnter "close_extensions"; EvCall LogClose] /\
  (log_close w = Return tt -> result (lifespan w serving) = Raise e).
Proof.
  intros Hs. unfold lifespan, perform. rewrite Hs. cbn.
  destruct (log_close w) as [[] | e' |]; cbn; split;
    try reflexivity; discriminate.
Qed.

Lemma lifespan_log_start_failure_witness :
  trace (lifespan world_log_unwritable (ret tt)) =
    [EvCall LogStart; EvEnter "close_extensions"; EvCall LogClose].
Proof.
  apply (lifespan_log_start_failure world_log_unwritable (ret tt)
           (Exception "log directory is read-only")).
  reflexivity.
Defined.

(** X20. An exception of [Log.close()] replaces whatever the lifespan was
    about to do: if the lifespan comes to an end at all, it raises the
    exception of [Log.close()], also when startup or the serving phase
    had raised another one, or none. *)
Theorem lifespan_close_failure_masks (w : World) (serving : M unit) (e : exn) :
  log_close w = Raise e ->
  is_pending (result (lifespan w serving)) = false ->
  result (lifespan w serving) = Raise e.
Proof.
  intros Hc. unfold lifespan. rewrite result_try_finally, shutdown_result, Hc.
  set (startup := (perform LogStart (log_start w) ;;;
                   initialize_extensions w ;;; serving)).
  destruct (result startup); cbn; intros H; try discriminate; reflexivity.
Qed.

(** X21. When startup succeeds, the serving phase runs between startup and
    shutdown, the shutdown steps follow as soon as serving ends, and the
    lifespan ends the way serving ended (an exception thrown into the
    generator is re-raised after the [finally] block) provided
    [Log.close()] returns. *)
Theorem lifespan_serving_after_startup (w : World) (serving : M unit) :
  log_start w = Return tt ->
  init_vector w = Return tt ->
  trace (lifespan w serving) =
    ([EvCall LogStart; EvEnter "initialize_extensions"; EvCall InitVector] ++
     trace serving ++
     if is_pending (result serving) then []
     else [EvEnter "close_extensions"; EvCall LogClose])%list /\
  (log_close w = Return tt -> result (lifespan w serving) = result serving).
Proof.
  intros Hs Hi. unfold lifespan, initialize_extensions, perform.
  rewrite Hs, Hi. destruct serving as [t [[] | e |]]; cbn.
  - destruct (log_close w) as [[] | e' |]; cbn; split;
      try reflexivity; discriminate.
  - destruct (log_close w) as [[] | e' |]; cbn; split;
      try reflexivity; discriminate.
  - rewrite app_nil_r. split; reflexivity.
Qed.

(** X22. When startup does not succeed, the serving phase is never reached:
    the run of the lifespan is the same whatever the serving phase
    would have been. *)
Theorem lifespan_serving_skipped (w : World) (serving serving' : M unit) :
  is_return (log_start w) && is_return (init_vector w) = false ->
  lifespan w serving = lifespan w serving'.
Proof.
  unfold lifespan, initialize_extensions, perform.
  destruct (log_start w) as [[] | e |], (init_vector w) as [[] | e' |];
    cbn; try discriminate; reflexivity.
Qed.

Lemma lifespan_close_failure_masks_witness :
  result (lifespan world_log_close_fails (ret tt)) =
  Raise (Exception "disk full").
Proof.
  apply (lifespan_close_failure_masks world_log_close_fails (ret tt)
           (Exception "disk full")); reflexivity.
Defined.

Lemma lifespan_serving_after_startup_witness :
  result (lifespan world_ok (raise (Exception "SIGTERM"))) =
  Raise (Exception "SIGTERM").
Proof.
  apply (proj2 (lifespan_serving_after_startup world_ok
                  (raise (Exception "SIGTERM")) eq_refl eq_refl) eq_refl).
Defined.

Lemma lifespan_serving_skipped_witness :
  lifespan world_no_backend (raise (Exception "SIGTERM")) =
  lifespan world_no_backend (ret tt).
Proof.
  apply (lifespan_serving_skipped world_no_backend). reflexivity.
Defined.

(** ** constants/constants.py *)

Lemma append_empty_r (a b : string) : (a ++ b)%string = "" -> b = "".
Proof. destruct a; cbn; [auto | discriminate]. Qed.

Lemma endswith_sep_append (a b : string) :
  b <> "" -> endswith_sep (a ++ b) = endswith_sep b.
Proof.
  intros Hb. induction a as [| c a IH]; [reflexivity |].
  change (endswith_sep (String c (a ++ b)) = endswith_sep b).
  destruct (a ++ b)%string as [| c' r] eqn:E.
  - destruct (Hb (append_empty_r a b E)).
  - rewrite <- IH. reflexivity.
Qed.

Lemma startswith_sep_append (a b : string) :
  a <> "" -> startswith_sep (a ++ b) = startswith_sep a.
Proof. destruct a; [congruence | reflexivity]. Qed.

Lemma prefix_append (a b : string) : String.prefix a (a ++ b) = true.
Proof.
  induction a as [| c a IH]; [destruct b; reflexivity |].
  change (String.prefix (String c a) (String c (a ++ b)) = true).
  cbn [String.prefix].
  destruct (Ascii.ascii_dec c c); [exact IH | congruence].
Qed.

Lemma prefix_trans (a b c : string) :
  String.prefix a b = true -> String.prefix b c = true ->
  String.prefix a c = true.
Proof.
  revert b c. induction a as [| x a IH]; intros b c Hab Hbc.
  - destruct c; reflexivity.
  - destruct b as [| y b]; [discriminate |].
    destruct c as [| z c]; [discriminate |].
    cbn in *.
    destruct (Ascii.ascii_dec x y) as [-> |]; [| discriminate].
    destruct (Ascii.ascii_dec y z) as [-> |]; [| discriminate].
    apply (IH b c); assumption.
Qed.

(** Joining a relative, non-empty leaf onto any path. *)
Lemma path_join_relative (a b : string) :
  startswith_sep b = false -> b <> "" ->
  String.prefix a (path_join a b) = true /\
  endswith_sep (path_join a b) = endswith_sep b /\
  path_join a b <> "".
Proof.
  intros Hs Hb. unfold path_join. rewrite Hs.
  destruct (String.eqb a "" || endswith_sep a).
  - split; [apply prefix_append |]. split; [apply endswith_sep_append, Hb |].
    intros E. apply Hb, (append_empty_r a b E).
  - split; [apply prefix_append |]. split.
    + rewrite endswith_sep_append; [| destruct b; [congruence | discriminate]].
      destruct b as [| c b]; [congruence |]. reflexivity.
    + intros E. apply append_empty_r in E. discriminate.
Qed.


(** X23. Every path constant derived from [ROOT_PATH] lies under it, whatever
    the root is (also the file-system root ["/"] or a root written with
    a trailing separator); the default Qdrant and Chroma directories are
    two different entries of the same [vector] directory. *)
Theorem path_constants_under_root (root : string) :
  String.prefix root (LOG_PATH root) = true /\
  String.prefix root (RESOURCE_PATH root) = true /\
  String.prefix root (ENV_FILE_PATH root) = true /\
  String.prefix (path_join root "vector") (QDRANT_DEFAULT_DISK_PATH root) = true /\
  String.prefix (path_join root "vector") (CHROMA_DEFAULT_DISK_PATH root) = true /\
  String.prefix root (QDRANT_DEFAULT_DISK_PATH root) = true /\
  String.prefix root (CHROMA_DEFAULT_DISK_PATH root) = true /\
  QDRANT_DEFAULT_DISK_PATH root =
    (path_join root "vector" ++ "/qdrant")%string /\
  CHROMA_DEFAULT_DISK_PATH root =
    (path_join root "vector" ++ "/chroma")%string.
Proof.
  pose proof (path_join_relative root "vector" eq_refl ltac:(discriminate))
    as (Hv & Hev & Hnv).
  assert (Hshape : String.eqb (path_join root "vector") "" ||
                   endswith_sep (path_join root "vector") = false).
  { rewrite Hev. apply String.eqb_neq in Hnv. rewrite Hnv. reflexivity. }
  assert (Hq : QDRANT_DEFAULT_DISK_PATH root =
               (path_join root "vector" ++ "/qdrant")%string).
  { unfold QDRANT_DEFAULT_DISK_PATH. unfold path_join at 1.
    cbn [startswith_sep Ascii.eqb Bool.eqb]. rewrite Hshape. reflexivity. }
  assert (Hc : CHROMA_DEFAULT_DISK_PATH root =
               (path_join root "vector" ++ "/chroma")%string).
  { unfold CHROMA_DEFAULT_DISK_PATH. unfold path_join at 1.
    cbn [startswith_sep Ascii.eqb Bool.eqb]. rewrite Hshape. reflexivity. }
  repeat split; try assumption.
  - apply (path_join_relative root "log"); [reflexivity | discriminate].
  - apply (path_join_relative root "resource"); [reflexivity | discriminate].
  - apply (path_join_relative root ".env"); [reflexivity | discriminate].
  - rewrite Hq. apply prefix_append.
  - rewrite Hc. apply prefix_append.
  - rewrite Hq. apply (prefix_trans _ _ _ Hv), prefix_append.
  - rewrite Hc. apply (prefix_trans _ _ _ Hv), prefix_append.
Qed.



Lemma yaml_file_nonempty (root : string) (env : gmap string string) :
  yaml_file root env <> "".
Proof.
  unfold yaml_file. set (name := environ_get env "WE0_INDEX_ENV" "dev").
  assert (Hb : (name ++ ".yaml")%string <> "").
  { intros E. apply append_empty_r in E. discriminate. }
  unfold path_join.
  destruct (startswith_sep (name ++ ".yaml")); [exact Hb |].
  destruct (String.eqb (RESOURCE_PATH root) "" ||
            endswith_sep (RESOURCE_PATH root));
    intros E; apply append_empty_r in E.
  - apply Hb, E.
  - discriminate.
Qed.

(** X25. [get_yaml_file_path] reads [WE0_INDEX_ENV] from the environment as
    [load_dotenv] has left it, which is also the environment it leaves
    behind.  It returns what [find_dotenv] found for the candidate, and
    the candidate itself when [find_dotenv] found nothing; it never
    returns the empty string, whether or not the file exists. *)
Theorem get_yaml_file_path_never_empty
    (lib : Dotenv) (root : string) (env : gmap string string) :
  let env' := load_dotenv lib (ENV_FILE_PATH root) env in
  snd (get_yaml_file_path lib root env) = env' /\
  (find_dotenv lib (yaml_file root env') = "" ->
   fst (get_yaml_file_path lib root env) = yaml_file root env') /\
  (find_dotenv lib (yaml_file root env') <> "" ->
   fst (get_yaml_file_path lib root env) = find_dotenv lib (yaml_file root env')) /\
  fst (get_yaml_file_path lib root env) <> "".
Proof.
  intros env'. unfold get_yaml_file_path, str_or. fold env'. cbn [fst snd].
  destruct (String.eqb_spec (find_dotenv lib (yaml_file root env')) "")
    as [E | N].
  - repeat split; try congruence. apply yaml_file_nonempty.
  - repeat split; try congruence.
Qed.

Lemma get_yaml_file_path_never_empty_witness :
  fst (get_yaml_file_path dotenv_no_files "/srv/we0-index" ∅) =
  "/srv/we0-index/resource/dev.yaml".
Proof.
  exact (proj1 (proj2 (get_yaml_file_path_never_empty
                         dotenv_no_files "/srv/we0-index" ∅)) eq_refl).
Defined.
